(** * Open-Meteo fetcher: a shallow embedding of [open_meteo.py]

    The module fetches a column-oriented weather time series over HTTP,
    reshapes it into a row-oriented pandas DataFrame and annotates it with
    location metadata.  The embedding below follows the Python text line by
    line: JSON documents and Python objects are values of one inductive
    type, dictionaries are insertion-ordered association lists, exceptions
    are an error type, and the effects of the code (the HTTP request, the
    progress line printed by the driver, the CSV file written on export)
    are threaded through an explicit state. *)

From Stdlib Require Import List String Ascii ZArith Lia Bool Arith.
From Stdlib Require Import Numbers.DecimalString.
Import ListNotations.
Set Warnings "-register-all".
Open Scope list_scope.
Open Scope string_scope.

(** ** Python objects *)

Module Py.

(** The objects the code handles: what [response.json()] can return, and the
    keyword arguments of the callers.  Strings are sequences of 8-bit
    characters (Python strings whose code points are below 256).  A float is
    kept as the text [repr] gives for it: the code never computes with
    floats, it only tests them for truth and formats them. *)
Inductive value : Type :=
| VNone
| VBool (b : bool)
| VInt (z : Z)
| VFloat (repr : string)
| VStr (s : string)
| VList (l : list value)
| VDict (d : list (string * value)).

(** A Python [dict] with string keys, in insertion order. *)
Definition dict : Type := list (string * value).

(** Exceptions raised by the code and by the runtime underneath it. *)
Inductive transport_error : Type :=
| ConnectionError
| HTTPError (status : nat)
| JSONDecodeError.

Inductive exn : Type :=
| KeyError (arg : string)
| IndexError
| TypeError
| AttributeError
| ValueError
| RequestError (e : transport_error)
| NotModelled.

Inductive result (A : Type) : Type :=
| Ok (a : A)
| Raise (e : exn).
Arguments Ok {A} a.
Arguments Raise {A} e.

Definition rbind {A B} (r : result A) (k : A -> result B) : result B :=
  match r with
  | Ok a => k a
  | Raise e => Raise e
  end.

Declare Scope result_scope.
Delimit Scope result_scope with result.
Notation "x <- c ;; k" := (rbind c (fun x => k))
  (at level 61, c at next level, right associativity) : result_scope.

(** *** Dictionaries *)

(** [key in d] and [d.get(key)]. *)
Fixpoint dict_get (k : string) (d : dict) : option value :=
  match d with
  | [] => None
  | (k', v) :: d' => if String.eqb k k' then Some v else dict_get k d'
  end.

Definition dict_mem (k : string) (d : dict) : bool :=
  match dict_get k d with Some _ => true | None => false end.

(** [d.get(key, default)]. *)
Definition dict_get_default (k : string) (default : value) (d : dict) : value :=
  match dict_get k d with Some v => v | None => default end.

(** [d[key] = v]: an existing key keeps its position, a new key goes last. *)
Fixpoint dict_set (k : string) (v : value) (d : dict) : dict :=
  match d with
  | [] => [(k, v)]
  | (k', v') :: d' =>
      if String.eqb k k' then (k', v) :: d' else (k', v') :: dict_set k v d'
  end.

(** [list(d)]: the keys in iteration order. *)
Definition dict_keys (d : dict) : list string := map fst d.

(** *** Truth value, [len], indexing, [in] *)

Definition truthy (v : value) : bool :=
  match v with
  | VNone => false
  | VBool b => b
  | VInt z => negb (Z.eqb z 0)
  | VFloat r => negb (String.eqb r "0.0" || String.eqb r "-0.0")
  | VStr s => negb (String.eqb s EmptyString)
  | VList l => match l with [] => false | _ => true end
  | VDict d => match d with [] => false | _ => true end
  end.

(** [len(v)]. *)
Definition py_len (v : value) : result nat :=
  match v with
  | VList l => Ok (List.length l)
  | VStr s => Ok (String.length s)
  | VDict d => Ok (List.length d)
  | _ => Raise TypeError
  end.

Definition Z_to_string (z : Z) : string := NilZero.string_of_int (Z.to_int z).

(** [v[i]] for a non-negative integer [i].  A dict from JSON has string keys
    only, so an integer subscript is always a missing key. *)
Definition py_getitem_int (v : value) (i : nat) : result value :=
  match v with
  | VList l => match nth_error l i with Some x => Ok x | None => Raise IndexError end
  | VStr s => match String.get i s with
              | Some c => Ok (VStr (String c EmptyString))
              | None => Raise IndexError
              end
  | VDict _ => Raise (KeyError (Z_to_string (Z.of_nat i)))
  | _ => Raise TypeError
  end.

(** [needle in hay] on strings: substring test. *)
Fixpoint str_contains (needle hay : string) : bool :=
  String.prefix needle hay ||
  match hay with
  | EmptyString => false
  | String _ hay' => str_contains needle hay'
  end.

(** [v.get(key, default)]: only dicts have the method. *)
Definition py_get (v : value) (k : string) (default : value) : result value :=
  match v with
  | VDict d => Ok (dict_get_default k default d)
  | _ => Raise AttributeError
  end.

(** *** [str] and [repr] *)

Definition hex_digit (n : nat) : ascii :=
  match n with
  | 0 => "0" | 1 => "1" | 2 => "2" | 3 => "3" | 4 => "4" | 5 => "5"
  | 6 => "6" | 7 => "7" | 8 => "8" | 9 => "9" | 10 => "a" | 11 => "b"
  | 12 => "c" | 13 => "d" | 14 => "e" | _ => "f"
  end%char.

(** Characters [repr] copies unchanged: the printable ones.  Below 256 the
    others are the controls, DEL, 0x80-0x9f, the no-break space and the
    soft hyphen. *)
Definition printable (c : ascii) : bool :=
  let n := nat_of_ascii c in
  ((32 <=? n) && negb ((127 <=? n) && (n <=? 160)) && negb (n =? 173))%nat.

Definition repr_char (quote : ascii) (c : ascii) : string :=
  let n := nat_of_ascii c in
  if Ascii.eqb c quote || Ascii.eqb c "\"%char then String "\"%char (String c EmptyString)
  else if (n =? 9)%nat then "\t"
  else if (n =? 10)%nat then "\n"
  else if (n =? 13)%nat then "\r"
  else if printable c then String c EmptyString
  else String "\"%char (String "x"%char
         (String (hex_digit (n / 16)) (String (hex_digit (n mod 16)) EmptyString))).

Fixpoint has_char (c : ascii) (s : string) : bool :=
  match s with
  | EmptyString => false
  | String c' s' => Ascii.eqb c c' || has_char c s'
  end.

Fixpoint repr_chars (quote : ascii) (s : string) : string :=
  match s with
  | EmptyString => EmptyString
  | String c s' => repr_char quote c ++ repr_chars quote s'
  end.

Definition dquote : ascii := ascii_of_nat 34.
Definition squote : ascii := ascii_of_nat 39.

(** [repr(s)] of a string: single quotes unless the text has a single quote
    and no double quote. *)
Definition repr_str (s : string) : string :=
  let quote := if has_char squote s && negb (has_char dquote s)
               then dquote else squote in
  String quote (repr_chars quote s ++ String quote EmptyString).

Fixpoint join (sep : string) (l : list string) : string :=
  match l with
  | [] => EmptyString
  | [s] => s
  | s :: l' => s ++ sep ++ join sep l'
  end.

Fixpoint py_repr (v : value) : string :=
  match v with
  | VNone => "None"
  | VBool true => "True"
  | VBool false => "False"
  | VInt z => Z_to_string z
  | VFloat r => r
  | VStr s => repr_str s
  | VList l => "[" ++ join ", " (map py_repr l) ++ "]"
  | VDict d =>
      "{" ++ join ", " (map (fun kv => repr_str (fst kv) ++ ": " ++ py_repr (snd kv)) d)
          ++ "}"
  end.

(** [str(v)], which is what an f-string field without a format gives. *)
Definition py_str (v : value) : string :=
  match v with
  | VStr s => s
  | _ => py_repr v
  end.

End Py.

Import Py.
Open Scope result_scope.

(** More of the runtime: [in], string subscripts, [",".join]. *)

(** [k in v] for a string [k]: key membership in a dict, element membership
    in a list, substring test on a string. *)
Definition py_contains (v : value) (k : string) : result bool :=
  match v with
  | VDict d => Ok (dict_mem k d)
  | VList l => Ok (existsb (fun x => match x with
                                     | VStr s => String.eqb s k
                                     | _ => false
                                     end) l)
  | VStr s => Ok (str_contains k s)
  | _ => Raise TypeError
  end.

(** [v[k]] for a string [k]. *)
Definition py_getitem_str (v : value) (k : string) : result value :=
  match v with
  | VDict d => match dict_get k d with
               | Some x => Ok x
               | None => Raise (KeyError (repr_str k))
               end
  | _ => Raise TypeError
  end.

(** Iterating a dict yields its keys.  The code only iterates an object
    whose [get] method it has already called. *)
Definition py_iter_keys (v : value) : result (list string) :=
  match v with
  | VDict d => Ok (dict_keys d)
  | _ => Raise TypeError
  end.

(** [sep.join(l)]: every element has to be a string. *)
Fixpoint str_items (l : list value) : result (list string) :=
  match l with
  | [] => Ok []
  | VStr s :: l' => ss <- str_items l' ;; Ok (s :: ss)
  | _ :: _ => Raise TypeError
  end.

Definition py_join (sep : string) (l : list value) : result string :=
  ss <- str_items l ;; Ok (join sep ss).

(** ** The part of pandas the code uses *)

Module Pandas.

(** A frame is its row count (the length of the index, a [RangeIndex]) and
    its columns in order, each with one cell per row.  Cells hold the Python
    objects they were built from.  pandas goes on to give each column one
    dtype: a [None] beside numbers or strings becomes NaN, ints beside a
    float or a [None] become floats.  That conversion is not modelled, so
    the cells of the model are the cells of pandas for the columns it leaves
    as they are: all strings, all floats, all ints or all booleans (see
    [uniform] below). *)
Record DataFrame : Type := mkDataFrame {
  nrows : nat;
  cols : list (string * list value)
}.

Definition columns (df : DataFrame) : list string := map fst (cols df).

Definition NaN : value := VFloat "nan".

Definition has_column (c : string) (df : DataFrame) : bool :=
  existsb (String.eqb c) (columns df).

(** Column labels of [pd.DataFrame(rows)] for a list of dicts: the keys of
    all rows, in order of first appearance. *)
Definition add_label (acc : list string) (k : string) : list string :=
  if existsb (String.eqb k) acc then acc else (acc ++ [k])%list.

Definition union_keys (rows : list dict) : list string :=
  fold_left (fun acc row => fold_left add_label (dict_keys row) acc) rows [].

(** [pd.DataFrame(rows)]: one row per dict, the labels of [union_keys]; a
    key a row lacks gives NaN in that row.  The cells are the objects of the
    rows, before the dtype conversion described above. *)
Definition of_rows (rows : list dict) : DataFrame :=
  {| nrows := List.length rows;
     cols := map (fun c => (c, map (dict_get_default c NaN) rows)) (union_keys rows) |}.

Definition is_scalar (v : value) : bool :=
  match v with
  | VList _ | VDict _ => false
  | _ => true
  end.

Definition insert_at {A} (loc : nat) (x : A) (l : list A) : list A :=
  (firstn loc l ++ x :: skipn loc l)%list.

(** [df.insert(loc, column, value)] with a scalar [value], which is
    broadcast to every row.  An existing label is refused.  pandas also
    takes a list-like or dict-like value and aligns it with the index; that
    is outside this model, which answers [NotModelled] there: a statement
    about the metadata columns holds for scalar metadata, and says so in
    its hypotheses. *)
Definition insert (loc : nat) (column : string) (v : value) (df : DataFrame)
  : result DataFrame :=
  if has_column column df then Raise ValueError
  else if negb (is_scalar v) then Raise NotModelled
  else if Nat.ltb (List.length (cols df)) loc then Raise IndexError
  else Ok {| nrows := nrows df;
             cols := insert_at loc (column, repeat v (nrows df)) (cols df) |}.

(** A Series over a [RangeIndex] is the list of its cells. *)
Definition Series : Type := list value.

(** [df.insert(loc, column, series)]: the series is aligned with the index
    of the frame, a missing position gives NaN. *)
Definition reindex (n : nat) (s : Series) : list value :=
  map (fun i => nth i s NaN) (seq 0 n).

Definition insert_series (loc : nat) (column : string) (s : Series) (df : DataFrame)
  : result DataFrame :=
  if has_column column df then Raise ValueError
  else if Nat.ltb (List.length (cols df)) loc then Raise IndexError
  else Ok {| nrows := nrows df;
             cols := insert_at loc (column, reindex (nrows df) s) (cols df) |}.

Fixpoint lookup_column (c : string) (l : list (string * list value)) : option (list value) :=
  match l with
  | [] => None
  | (c', s) :: l' => if String.eqb c c' then Some s else lookup_column c l'
  end.

Fixpoint remove_column (c : string) (l : list (string * list value))
  : list (string * list value) :=
  match l with
  | [] => []
  | (c', s) :: l' => if String.eqb c c' then l' else (c', s) :: remove_column c l'
  end.

(** [df[c]]. *)
Definition column (c : string) (df : DataFrame) : option Series :=
  lookup_column c (cols df).

(** [df.pop(c)]: the column, and the frame without it. *)
Definition pop (c : string) (df : DataFrame) : result (Series * DataFrame) :=
  match column c df with
  | Some s => Ok (s, {| nrows := nrows df; cols := remove_column c (cols df) |})
  | None => Raise (KeyError (repr_str c))
  end.

(** [pd.concat(frames, ignore_index=True)]: the rows of the frames one
    after the other under a new [RangeIndex]; the columns are the labels of
    all frames in order of first appearance, and a frame that lacks a label
    gives NaN in its rows.  An empty list of frames is refused. *)
Definition concat_columns (frames : list DataFrame) : list string :=
  fold_left (fun acc df => fold_left add_label (columns df) acc) frames [].

Definition cells_of (c : string) (df : DataFrame) : list value :=
  match column c df with
  | Some s => s
  | None => repeat NaN (nrows df)
  end.

Definition concat (frames : list DataFrame) : result DataFrame :=
  match frames with
  | [] => Raise ValueError
  | _ => Ok {| nrows := list_sum (map nrows frames);
               cols := map (fun c => (c, flat_map (cells_of c) frames))
                           (concat_columns frames) |}
  end.

End Pandas.

Import Pandas.

(** ** The program *)

Section OpenMeteo.

(** The network is not part of the program.  [requests_get url params w]
    stands for [requests.get(url, params=params)], [raise_for_status()] and
    [json()] together: the parsed body or the error, and the network
    afterwards. *)
Variable World : Type.
Variable requests_get : string -> dict -> World -> (transport_error + value) * World.

(** What the program can change: the network, the requests it has sent,
    the lines it has printed, the files it has written. *)
Record state : Type := mkState {
  net : World;
  sent : list (string * dict);
  stdout : list string;
  files : list (string * DataFrame)
}.

Definition M (A : Type) : Type := state -> result A * state.

Definition ret {A} (a : A) : M A := fun st => (Ok a, st).

Definition bind {A B} (m : M A) (k : A -> M B) : M B :=
  fun st => match m st with
            | (Ok a, st') => k a st'
            | (Raise e, st') => (Raise e, st')
            end.

Definition lift {A} (r : result A) : M A := fun st => (r, st).

Notation "x <~ c ;; k" := (bind c (fun x => k))
  (at level 61, c at next level, right associativity).
Notation "' pat <~ c ;; k" := (bind c (fun x => match x with pat => k end))
  (at level 61, pat pattern, c at next level, right associativity).

(** [requests.get(base_url, params=params)], [response.raise_for_status()],
    [response.json()]. *)
Definition fetch_json (base_url : string) (params : dict) : M value :=
  fun st =>
    let (r, w) := requests_get base_url params (net st) in
    let st' := {| net := w; sent := (sent st ++ [(base_url, params)])%list;
                  stdout := stdout st; files := files st |} in
    match r with
    | inr data => (Ok data, st')
    | inl e => (Raise (RequestError e), st')
    end.

(** [print(line)]. *)
Definition print (line : string) : M unit :=
  fun st => (Ok tt, {| net := net st; sent := sent st;
                       stdout := (stdout st ++ [line])%list; files := files st |}).

(** [df.to_csv(filename, index=False, encoding='utf-8')] for a path given
    as a string: the file holds the frame.  Other kinds of target are
    outside this model. *)
Definition to_csv (df : DataFrame) (filename : value) : M unit :=
  match filename with
  | VStr path =>
      fun st => (Ok tt, {| net := net st; sent := sent st; stdout := stdout st;
                           files := (files st ++ [(path, df)])%list |})
  | _ => lift (Raise NotModelled)
  end.

(** Lines 20-21: a list under ["hourly"] is joined with commas. *)
Definition join_hourly (params : dict) : result dict :=
  match dict_get "hourly" params with
  | Some (VList l) => s <- py_join "," l ;; Ok (dict_set "hourly" (VStr s) params)
  | _ => Ok params
  end.

(** Lines 42-43: the label of a variable. *)
Definition label (key : string) (unit : value) : string :=
  if truthy unit then key ++ " (" ++ py_str unit ++ ")" else key.

(** Line 34. *)
Definition time_col_name (timezone : value) : string :=
  if truthy timezone then "time (" ++ py_str timezone ++ ")" else "time".

(** Lines 40-44: the inner loop over the keys of [weather_data]. *)
Fixpoint fill_row (weather_data units : value) (i : nat) (keys : list string) (row : dict)
  : result dict :=
  match keys with
  | [] => Ok row
  | key :: keys' =>
      if negb (String.eqb key "time") then
        unit <- py_get units key (VStr EmptyString) ;;
        series <- py_getitem_str weather_data key ;;
        x <- py_getitem_int series i ;;
        fill_row weather_data units i keys' (dict_set (label key unit) x row)
      else fill_row weather_data units i keys' row
  end.

(** Lines 39-44: the row for index [i]. *)
Definition make_row (tcol : string) (timestamps weather_data units : value) (i : nat)
  : result dict :=
  t <- py_getitem_int timestamps i ;;
  keys <- py_iter_keys weather_data ;;
  fill_row weather_data units i keys [(tcol, t)].

(** Lines 37-45: the outer loop, [rows.append(row)] for each index. *)
Fixpoint rows_loop (mk : nat -> result dict) (indices : list nat) (rows : list dict)
  : result (list dict) :=
  match indices with
  | [] => Ok rows
  | i :: indices' => row <- mk i ;; rows_loop mk indices' (rows ++ [row])%list
  end.

(** Lines 30-45. *)
Definition reshape (data : value) (data_key : string) : result (list dict) :=
  weather_data <- py_getitem_str data data_key ;;
  units <- py_get data (data_key ++ "_units") (VDict []) ;;
  timezone <- py_get data "timezone" (VStr "UTC") ;;
  let tcol := time_col_name timezone in
  timestamps <- py_get weather_data "time" (VList []) ;;
  n <- py_len timestamps ;;
  rows_loop (make_row tcol timestamps weather_data units) (seq 0 n) [].

(** Line 57: the first column whose label starts with ["time"]. *)
Definition find_time_col (df : DataFrame) : result string :=
  match filter (String.prefix "time") (columns df) with
  | c :: _ => Ok c
  | [] => Raise IndexError
  end.

(** Lines 47-62. *)
Definition annotate (data : value) (params : dict) (location_name : value)
  (rows : list dict) : result DataFrame :=
  let df := of_rows rows in
  lat <- py_get data "latitude" (dict_get_default "latitude" VNone params) ;;
  lon <- py_get data "longitude" (dict_get_default "longitude" VNone params) ;;
  ele <- py_get data "elevation" (dict_get_default "elevation" VNone params) ;;
  df <- insert 0 "latitude" lat df ;;
  df <- insert 1 "longitude" lon df ;;
  df <- insert 2 "elevation" ele df ;;
  time_col <- find_time_col df ;;
  popped <- pop time_col df ;;
  df <- insert_series 3 time_col (fst popped) (snd popped) ;;
  if truthy location_name then insert 0 "location" location_name df else Ok df.

(** Lines 27-28. *)
Definition check_data_key (data : value) (data_key : string) : result unit :=
  present <- py_contains data data_key ;;
  if negb present
  then Raise (KeyError ("'" ++ data_key ++ "' not found in the response"))
  else Ok tt.

Definition get_weather_data_df (base_url data_key : string) (export : bool)
  (filename location_name : value) (params : dict) : M DataFrame :=
  params <~ lift (join_hourly params) ;;
  data <~ fetch_json base_url params ;;
  _ <~ lift (check_data_key data data_key) ;;
  rows <~ lift (reshape data data_key) ;;
  df <~ lift (annotate data params location_name rows) ;;
  _ <~ (if export && truthy filename then to_csv df filename else ret tt) ;;
  ret df.

(** Lines 87-95: how the call in the driver binds its arguments.  A name in
    [**params] that the call also gives is a [TypeError]; ["filename"] is
    the one parameter of the callee the call leaves to [**params]. *)
Definition call_names : list string :=
  ["base_url"; "data_key"; "export"; "latitude"; "longitude"; "location_name"].

Definition clashes (params : dict) : bool :=
  existsb (fun k => existsb (String.eqb k) call_names) (dict_keys params).

Definition without (k : string) (d : dict) : dict :=
  filter (fun kv => negb (String.eqb (fst kv) k)) d.

Definition call_get_weather_data_df (base_url data_key name : string) (lat lon : value)
  (params : dict) : M DataFrame :=
  if clashes params then lift (Raise TypeError)
  else get_weather_data_df base_url data_key false
         (dict_get_default "filename" VNone params) (VStr name)
         (("latitude", lat) :: ("longitude", lon) :: without "filename" params).

(** Line 86: the text of the progress line. *)
Definition progress_line (name : string) (lat lon : value) : string :=
  "Fetching data for " ++ name ++ ": (" ++ py_str lat ++ ", " ++ py_str lon ++ ")".

(** Lines 85-96: the loop over [locations.items()]. *)
Fixpoint locations_loop (base_url data_key : string) (params : dict)
  (items : list (string * (value * value))) (all_dfs : list DataFrame)
  : M (list DataFrame) :=
  match items with
  | [] => ret all_dfs
  | (name, (lat, lon)) :: items' =>
      _ <~ print (progress_line name lat lon) ;;
      df <~ call_get_weather_data_df base_url data_key name lat lon params ;;
      locations_loop base_url data_key params items' (all_dfs ++ [df])%list
  end.

Definition get_weather_data_multiple_locations (base_url : string)
  (locations : list (string * (value * value))) (data_key : string) (export : bool)
  (params : dict) : M (list DataFrame) :=
  locations_loop base_url data_key params locations [].

(** Line 108: [default_config.pop("base_url")] on what [yaml.safe_load]
    returned.  A mapping gives the value and loses the key; a list takes
    integers only; the other documents have no [pop]. *)
Definition py_pop (v : value) (k : string) : result (value * dict) :=
  match v with
  | VDict d => match dict_get k d with
               | Some x => Ok (x, without k d)
               | None => Raise (KeyError (repr_str k))
               end
  | VList _ => Raise TypeError
  | _ => Raise AttributeError
  end.

(** Lines 110-114.  The floats are written as [repr] prints them. *)
Definition main_locations : list (string * (value * value)) :=
  [("Nashik", (VFloat "20.5943", VFloat "74.3715"));
   ("Pune", (VFloat "18.5204", VFloat "73.8567"));
   ("Mumbai", (VFloat "19.076", VFloat "72.8777"))].

(** Lines 116-122: the call of the driver.  A key of the configuration that
    names a parameter the call gives itself is a [TypeError].  A base URL
    that is not a string is outside this model. *)
Definition driver_names : list string := ["base_url"; "locations"; "data_key"; "export"].

Definition call_driver (base_url : value) (config : dict) : M (list DataFrame) :=
  if existsb (fun k => existsb (String.eqb k) driver_names) (dict_keys config)
  then lift (Raise TypeError)
  else match base_url with
       | VStr url =>
           get_weather_data_multiple_locations url main_locations "hourly" false config
       | _ => lift (Raise NotModelled)
       end.

(** Lines 105-127: the main block, from the document [yaml.safe_load] has
    read from [defaults.yaml]. *)
Definition main (default_config : value) : M unit :=
  popped <~ lift (py_pop default_config "base_url") ;;
  dfs <~ call_driver (fst popped) (snd popped) ;;
  combined_df <~ lift (concat dfs) ;;
  _ <~ to_csv combined_df (VStr "abc1.csv") ;;
  _ <~ print "Saved complete data to abc1.csv" ;;
  print "Data fetched and saved successfully.".

End OpenMeteo.

Arguments mkState {World} net sent stdout files.
Arguments net {World} s.
Arguments sent {World} s.
Arguments stdout {World} s.
Arguments files {World} s.
Arguments ret {World A} a st.
Arguments lift {World A} r st.
Arguments bind {World A B} m k st.
Arguments to_csv {World} df filename st.
Arguments print {World} line st.

(** ** A scripted network, to run the program on examples *)

(** The network answers the requests with the responses of a script, one
    after the other, and refuses the connection when the script is over. *)
Definition script : Type := list (transport_error + value).

Definition scripted (url : string) (params : dict) (w : script)
  : (transport_error + value) * script :=
  match w with
  | [] => (inl ConnectionError, [])
  | r :: w' => (r, w')
  end.

Definition start (w : script) : state script := mkState w [] [] [].

Definition degC : string := String (ascii_of_nat 176) "C".

(** The response of the scenario in the specification. *)
Definition nashik_response : value :=
  VDict [("hourly", VDict [("time", VList [VStr "2024-01-01T00:00"]);
                           ("temperature_2m", VList [VFloat "5.3"])]);
         ("hourly_units", VDict [("temperature_2m", VStr degC)]);
         ("timezone", VStr "UTC");
         ("latitude", VFloat "20.59");
         ("longitude", VFloat "74.37")].

Definition nashik_params : dict :=
  [("elevation", VInt 7);
   ("hourly", VList [VStr "temperature_2m"; VStr "precipitation"])].

Definition forecast_url : string := "https://api.open-meteo.com/v1/forecast".

(** The table and the state the scenario ends with. *)
Definition nashik_table : DataFrame :=
  {| nrows := 1;
     cols := [("location", [VStr "Nashik"]);
              ("latitude", [VFloat "20.59"]);
              ("longitude", [VFloat "74.37"]);
              ("elevation", [VInt 7]);
              ("time (UTC)", [VStr "2024-01-01T00:00"]);
              ("temperature_2m (" ++ degC ++ ")", [VFloat "5.3"])] |}.

Definition nashik_sent : dict :=
  [("elevation", VInt 7); ("hourly", VStr "temperature_2m,precipitation")].

Definition nashik_after : state script :=
  mkState [] [(forecast_url, nashik_sent)] [] [].

(** A response without the data key, one whose temperature series is
    shorter than its time array, and one with no timestamps. *)
Definition daily_response : value :=
  VDict [("daily", VDict [("time", VList [VStr "2024-01-01"])]);
         ("latitude", VFloat "20.59")].

Definition short_response : value :=
  VDict [("hourly", VDict [("time", VList [VStr "2024-01-01T00:00";
                                            VStr "2024-01-01T01:00";
                                            VStr "2024-01-01T02:00"]);
                           ("temperature_2m", VList [VFloat "5.3"; VFloat "5.1"]);
                           ("precipitation", VList [VInt 0; VInt 0; VInt 1])]);
         ("hourly_units", VDict [("temperature_2m", VStr degC)]);
         ("latitude", VFloat "20.59")].

Definition empty_response : value :=
  VDict [("hourly", VDict [("time", VList [])]);
         ("latitude", VFloat "20.59")].

(** Two locations, as the driver gets them. *)
Definition two_locations : list (string * (value * value)) :=
  [("A", (VInt 1, VInt 2)); ("B", (VInt 3, VInt 4))].

Definition table_of (name : string) : DataFrame :=
  {| nrows := 1;
     cols := [("location", [VStr name]);
              ("latitude", [VFloat "20.59"]);
              ("longitude", [VFloat "74.37"]);
              ("elevation", [VNone]);
              ("time (UTC)", [VStr "2024-01-01T00:00"]);
              ("temperature_2m (" ++ degC ++ ")", [VFloat "5.3"])] |}.

(** The scenario with export on, and more inputs: a list of variables with
    an item that is not a string, a response with a variable named
    ["latitude"], and a configuration for the main block. *)
Definition nashik_exported : state script :=
  mkState [] [(forecast_url, nashik_sent)] [] [("out.csv", nashik_table)].

Definition mixed_params : dict :=
  [("hourly", VList [VStr "temperature_2m"; VInt 2])].

Definition clash_response : value :=
  VDict [("hourly", VDict [("time", VList [VStr "2024-01-01T00:00"]);
                           ("latitude", VList [VFloat "20.59"])])].

Definition main_config : value :=
  VDict [("base_url", VStr forecast_url);
         ("hourly", VList [VStr "temperature_2m"])].

Definition main_tables : list DataFrame :=
  [table_of "Nashik"; table_of "Pune"; table_of "Mumbai"].

Definition main_requests : list (string * dict) :=
  [(forecast_url, [("latitude", VFloat "20.5943"); ("longitude", VFloat "74.3715");
                   ("hourly", VStr "temperature_2m")]);
   (forecast_url, [("latitude", VFloat "18.5204"); ("longitude", VFloat "73.8567");
                   ("hourly", VStr "temperature_2m")]);
   (forecast_url, [("latitude", VFloat "19.076"); ("longitude", VFloat "72.8777");
                   ("hourly", VStr "temperature_2m")])].

Definition main_table : DataFrame :=
  {| nrows := 3;
     cols := [("location", [VStr "Nashik"; VStr "Pune"; VStr "Mumbai"]);
              ("latitude", [VFloat "20.59"; VFloat "20.59"; VFloat "20.59"]);
              ("longitude", [VFloat "74.37"; VFloat "74.37"; VFloat "74.37"]);
              ("elevation", [VNone; VNone; VNone]);
              ("time (UTC)", [VStr "2024-01-01T00:00"; VStr "2024-01-01T00:00";
                              VStr "2024-01-01T00:00"]);
              ("temperature_2m (" ++ degC ++ ")",
               [VFloat "5.3"; VFloat "5.3"; VFloat "5.3"])] |}.

Definition main_end : state script :=
  mkState [] main_requests
    ["Fetching data for Nashik: (20.5943, 74.3715)";
     "Fetching data for Pune: (18.5204, 73.8567)";
     "Fetching data for Mumbai: (19.076, 72.8777)";
     "Saved complete data to abc1.csv";
     "Data fetched and saved successfully."]
    [("abc1.csv", main_table)].

(** A response of three hours for Pune: the elevation is left to the query
    parameters. *)
Definition pune_response : value :=
  VDict [("latitude", VFloat "18.52");
         ("longitude", VFloat "73.86");
         ("timezone", VStr "Asia/Kolkata");
         ("hourly_units", VDict [("time", VStr "iso8601");
                                 ("temperature_2m", VStr degC);
                                 ("precipitation", VStr "mm")]);
         ("hourly", VDict [("time", VList [VStr "2024-01-01T00:00";
                                            VStr "2024-01-01T01:00";
                                            VStr "2024-01-01T02:00"]);
                           ("temperature_2m",
                            VList [VFloat "17.4"; VFloat "16.9"; VFloat "16.1"]);
                           ("precipitation",
                            VList [VFloat "0.0"; VFloat "0.0"; VFloat "0.2"])])].

Definition pune_params : dict :=
  [("latitude", VFloat "18.5204"); ("longitude", VFloat "73.8567");
   ("elevation", VInt 560);
   ("hourly", VList [VStr "temperature_2m"; VStr "precipitation"])].

Definition pune_sent : dict :=
  [("latitude", VFloat "18.5204"); ("longitude", VFloat "73.8567");
   ("elevation", VInt 560);
   ("hourly", VStr "temperature_2m,precipitation")].

Definition pune_table : DataFrame :=
  {| nrows := 3;
     cols := [("location", [VStr "Pune"; VStr "Pune"; VStr "Pune"]);
              ("latitude", [VFloat "18.52"; VFloat "18.52"; VFloat "18.52"]);
              ("longitude", [VFloat "73.86"; VFloat "73.86"; VFloat "73.86"]);
              ("elevation", [VInt 560; VInt 560; VInt 560]);
              ("time (Asia/Kolkata)", [VStr "2024-01-01T00:00";
                                       VStr "2024-01-01T01:00";
                                       VStr "2024-01-01T02:00"]);
              ("temperature_2m (" ++ degC ++ ")",
               [VFloat "17.4"; VFloat "16.9"; VFloat "16.1"]);
              ("precipitation (mm)",
               [VFloat "0.0"; VFloat "0.0"; VFloat "0.2"])] |}.

Definition pune_after : state script :=
  mkState [] [(forecast_url, pune_sent)] [] [].

(** Runs of the driver over the two locations: one that returns, one whose
    second request fails. *)
Definition shared_hourly : dict := [("hourly", VList [VStr "temperature_2m"])].

Definition request_for (lat lon : value) : string * dict :=
  (forecast_url,
   [("latitude", lat); ("longitude", lon); ("hourly", VStr "temperature_2m")]).

Definition two_end : state script :=
  mkState [] [request_for (VInt 1) (VInt 2); request_for (VInt 3) (VInt 4)]
    ["Fetching data for A: (1, 2)"; "Fetching data for B: (3, 4)"] [].

Definition second_fails : script := [inr nashik_response; inl (HTTPError 503)].

Definition after_first : state script :=
  mkState [inl (HTTPError 503)] [request_for (VInt 1) (VInt 2)]
    ["Fetching data for A: (1, 2)"] [].

Definition after_second : state script :=
  mkState [] [request_for (VInt 1) (VInt 2); request_for (VInt 3) (VInt 4)]
    ["Fetching data for A: (1, 2)"; "Fetching data for B: (3, 4)"] [].

(** ** Notions used to state the properties *)

(** The length of a sequence object (a list or a string); other objects
    are not sequences. *)
Definition seq_len (v : value) : option nat :=
  match v with
  | VList l => Some (List.length l)
  | VStr s => Some (String.length s)
  | _ => None
  end.

(** The elements of [l] not in [seen], each once, in order of first
    appearance. *)
Fixpoint uniq_from (seen l : list string) : list string :=
  match l with
  | [] => []
  | x :: l' =>
      if existsb (String.eqb x) seen then uniq_from seen l'
      else x :: uniq_from (seen ++ [x])%list l'
  end.

(** The unit the response gives for a variable, [units.get(key, "")]. *)
Definition unit_of (units : value) (key : string) : value :=
  match units with
  | VDict u => dict_get_default key (VStr EmptyString) u
  | _ => VStr EmptyString
  end.

(** The variables of a series other than ["time"], in the order of the
    response, and their labels. *)
Definition variables (weather_data : dict) : list string :=
  filter (fun k => negb (String.eqb k "time")) (dict_keys weather_data).

Definition var_labels (weather_data : dict) (units : value) : list string :=
  map (fun k => label k (unit_of units k)) (variables weather_data).

(** What lines 31, 32 and 35 read from a response [data] that is a dict
    and from its series [weather_data]. *)
Definition units_of (data : dict) (data_key : string) : value :=
  dict_get_default (data_key ++ "_units") (VDict []) data.

Definition timezone_of (data : dict) : value :=
  dict_get_default "timezone" (VStr "UTC") data.

Definition timestamps_of (weather_data : dict) : value :=
  dict_get_default "time" (VList []) weather_data.

(** The length of the series of a variable, when the series is a
    sequence. *)
Definition series_len (weather_data : dict) (key : string) : option nat :=
  match dict_get key weather_data with
  | Some s => seq_len s
  | None => None
  end.

(** The series of a response are aligned with [n] timestamps when each is
    a sequence of at least [n] elements. *)
Definition aligned (weather_data : dict) (n : nat) : Prop :=
  forall key, In key (variables weather_data) ->
    exists len, series_len weather_data key = Some len /\ n <= len.


(** The text a list of names is sent as: the names with a comma between
    each two of them. *)
Fixpoint comma_separated (names : list string) : string :=
  match names with
  | [] => EmptyString
  | name :: more =>
      match more with
      | [] => name
      | _ :: _ => name ++ "," ++ comma_separated more
      end
  end.

(** Values pandas keeps as they are when they make up a column: all
    strings, all floats, all ints or all booleans. *)
Definition same_kind (v w : value) : bool :=
  match v, w with
  | VStr _, VStr _ => true
  | VFloat _, VFloat _ => true
  | VInt _, VInt _ => true
  | VBool _, VBool _ => true
  | _, _ => false
  end.

Definition uniform (l : list value) : bool :=
  match l with
  | [] => true
  | v :: _ => forallb (same_kind v) l
  end.

(** The leading column a location label gives. *)
Definition location_columns (location_name : value) : list string :=
  if truthy location_name then ["location"] else [].

(** The value of a metadata column: the field of the response when the
    response has it, else the query parameter, else [None]. *)
Definition metadata (field : string) (data params : dict) : value :=
  match dict_get field data with
  | Some v => v
  | None => match dict_get field params with
            | Some v => v
            | None => VNone
            end
  end.

Section Driver.

Variable World : Type.
Variable requests_get : string -> dict -> World -> (transport_error + value) * World.

(** The state after the request has been sent. *)
Definition after_request (base_url : string) (params : dict) (st : state World)
  : state World :=
  mkState (snd (requests_get base_url params (net st)))
          (sent st ++ [(base_url, params)])%list (stdout st) (files st).

(** [tables_for ... st items dfs st']: from state [st], the tables [dfs] are
    what the single-location operation returns for the locations [items],
    one after the other, each called with export off, the name of the
    location as its label and the coordinates of the location in front of
    the shared parameters; [st'] is the state after the last call. *)
Inductive tables_for (base_url data_key : string) (params : dict)
  : state World -> list (string * (value * value)) -> list DataFrame -> state World -> Prop :=
| tables_nil st : tables_for base_url data_key params st [] [] st
| tables_cons st name lat lon items df st1 dfs st2 :
    get_weather_data_df World requests_get base_url data_key false
      (dict_get_default "filename" VNone params) (VStr name)
      (("latitude", lat) :: ("longitude", lon) :: without "filename" params)
      (mkState (net st) (sent st)
         (stdout st ++ [progress_line name lat lon])%list (files st))
    = (Ok df, st1) ->
    tables_for base_url data_key params st1 items dfs st2 ->
    tables_for base_url data_key params st ((name, (lat, lon)) :: items) (df :: dfs) st2.

End Driver.

(** ** Facts about the runtime and pandas models *)

Lemma rbind_ok {A B} (r : result A) (k : A -> result B) (b : B) :
  rbind r k = Ok b -> exists a, r = Ok a /\ k a = Ok b.
Proof.
  destruct r as [a|e]; simpl; intros H; [eauto | discriminate].
Qed.

Ltac inv_bind H :=
  let x := fresh "x" in
  let Hx := fresh "E" in
  apply rbind_ok in H; destruct H as (x & Hx & H).

Lemma dict_keys_set (k : string) (v : value) (d : dict) :
  dict_keys (dict_set k v d) = add_label (dict_keys d) k.
Proof.
  unfold add_label, dict_keys.
  induction d as [|[k' v'] d IH]; simpl; [reflexivity|].
  destruct (String.eqb k k') eqn:E; simpl; [reflexivity|].
  rewrite IH. destruct (existsb (String.eqb k) (map fst d)); reflexivity.
Qed.

Lemma dict_get_set_same (k : string) (v : value) (d : dict) :
  dict_get k (dict_set k v d) = Some v.
Proof.
  induction d as [|[k' v'] d IH]; simpl.
  - now rewrite String.eqb_refl.
  - destruct (String.eqb k k') eqn:E; simpl; rewrite E; auto.
Qed.

Lemma dict_get_set_other (k k' : string) (v : value) (d : dict) :
  k' <> k -> dict_get k' (dict_set k v d) = dict_get k' d.
Proof.
  intros N. induction d as [|[k0 v0] d IH]; simpl.
  - apply String.eqb_neq in N. now rewrite N.
  - destruct (String.eqb k k0) eqn:E; simpl.
    + apply String.eqb_eq in E; subst k0.
      apply String.eqb_neq in N. now rewrite N.
    + now rewrite IH.
Qed.

Lemma dict_get_in_keys (k : string) (d : dict) :
  In k (dict_keys d) <-> dict_get k d <> None.
Proof.
  unfold dict_keys. induction d as [|[k' v'] d IH]; simpl.
  - split; [tauto | congruence].
  - destruct (String.eqb k k') eqn:E.
    + apply String.eqb_eq in E. split; [discriminate | auto].
    + apply String.eqb_neq in E. rewrite <- IH. split; [intros [?|?]; congruence || auto | auto].
Qed.

Lemma existsb_eqb_In (x : string) (l : list string) :
  existsb (String.eqb x) l = true <-> In x l.
Proof.
  rewrite existsb_exists. split.
  - intros (y & Hy & E). apply String.eqb_eq in E. now subst.
  - intros H. exists x. now rewrite String.eqb_refl.
Qed.

Lemma fold_add_label (l acc : list string) :
  fold_left add_label l acc = (acc ++ uniq_from acc l)%list.
Proof.
  revert acc. induction l as [|x l IH]; intros acc; simpl.
  - now rewrite app_nil_r.
  - unfold add_label at 2. destruct (existsb (String.eqb x) acc); rewrite IH.
    + reflexivity.
    + now rewrite <- app_assoc.
Qed.

Lemma uniq_from_all_seen (seen l : list string) :
  (forall x, In x l -> In x seen) -> uniq_from seen l = [].
Proof.
  revert seen. induction l as [|x l IH]; intros seen H; simpl; [reflexivity|].
  assert (Hx : existsb (String.eqb x) seen = true)
    by (apply existsb_eqb_In, H; now left).
  rewrite Hx. apply IH. intros y Hy. apply H. now right.
Qed.

Lemma uniq_from_nodup (seen l : list string) :
  NoDup l -> (forall x, In x l -> ~ In x seen) -> uniq_from seen l = l.
Proof.
  revert seen. induction l as [|x l IH]; intros seen ND H; simpl; [reflexivity|].
  inversion ND as [|? ? Hx ND']; subst.
  destruct (existsb (String.eqb x) seen) eqn:E.
  - apply existsb_eqb_In in E. exfalso. apply (H x); [now left | assumption].
  - f_equal. apply IH; [assumption|].
    intros y Hy Hin. apply in_app_or in Hin. destruct Hin as [Hin|[->|[]]].
    + apply (H y); [now right | assumption].
    + contradiction.
Qed.

Lemma union_keys_same (rows : list dict) (K : list string) :
  NoDup K -> rows <> [] -> Forall (fun r => dict_keys r = K) rows ->
  union_keys rows = K.
Proof.
  intros ND NE HK. unfold union_keys.
  destruct rows as [|r rows]; [congruence|].
  inversion HK as [|? ? Hr Hrows]; subst. simpl.
  rewrite fold_add_label. simpl.
  rewrite (uniq_from_nodup [] (dict_keys r)) by (auto; intros ? ? []).
  clear NE HK. induction rows as [|r' rows IH]; simpl; [reflexivity|].
  inversion Hrows as [|? ? Hr' Hrows']; subst.
  rewrite fold_add_label, Hr', uniq_from_all_seen, app_nil_r by auto.
  apply IH; assumption.
Qed.

Lemma columns_of_rows (rows : list dict) :
  columns (of_rows rows) = union_keys rows.
Proof.
  unfold columns, of_rows; simpl. rewrite map_map. simpl. apply map_id.
Qed.

(** The outer loop appends one row per index, in order. *)
Lemma rows_loop_ok (mk : nat -> result dict) (indices : list nat) (acc rows : list dict) :
  rows_loop mk indices acc = Ok rows ->
  exists new, rows = (acc ++ new)%list /\ Forall2 (fun i r => mk i = Ok r) indices new.
Proof.
  revert acc. induction indices as [|i indices IH]; intros acc H; simpl in H.
  - injection H as <-. exists []. now rewrite app_nil_r.
  - inv_bind H. apply IH in H. destruct H as (new & -> & F).
    exists (x :: new). rewrite <- app_assoc. split; [reflexivity|].
    constructor; assumption.
Qed.

Lemma rows_loop_complete (mk : nat -> result dict) (indices : list nat) (acc new : list dict) :
  Forall2 (fun i r => mk i = Ok r) indices new ->
  rows_loop mk indices acc = Ok (acc ++ new)%list.
Proof.
  intros F. revert acc. induction F as [|i r indices new Hi F IH]; intros acc; simpl.
  - now rewrite app_nil_r.
  - rewrite Hi. simpl. rewrite IH, <- app_assoc. reflexivity.
Qed.

(** The loop stops at the first index whose row cannot be built. *)
Lemma rows_loop_raise (mk : nat -> result dict) (e : exn) (before after : list nat)
  (i : nat) (acc : list dict) :
  (forall j, In j before -> exists r, mk j = Ok r) ->
  mk i = Raise e ->
  rows_loop mk (before ++ i :: after)%list acc = Raise e.
Proof.
  revert acc. induction before as [|j before IH]; intros acc Hb Hi; simpl.
  - now rewrite Hi.
  - destruct (Hb j (or_introl eq_refl)) as (r & Hr). rewrite Hr. simpl.
    apply IH; [|assumption]. intros j' Hj'. apply Hb. now right.
Qed.

Lemma py_get_ok (v : value) (k : string) (default x : value) :
  py_get v k default = Ok x ->
  exists d, v = VDict d /\ x = dict_get_default k default d.
Proof.
  destruct v; simpl; intros H; try discriminate.
  injection H as <-. eauto.
Qed.

(** The keys of a row the inner loop has filled. *)
Lemma fill_row_keys (wd units : value) (i : nat) (keys : list string) (row row' : dict) :
  fill_row wd units i keys row = Ok row' ->
  dict_keys row' =
  fold_left add_label
    (map (fun k => label k (unit_of units k))
         (filter (fun k => negb (String.eqb k "time")) keys))
    (dict_keys row).
Proof.
  revert row. induction keys as [|key keys IH]; intros row H; simpl in H.
  - injection H as <-. reflexivity.
  - simpl. destruct (String.eqb key "time") eqn:E; simpl in *.
    + apply IH, H.
    + inv_bind H. inv_bind H. inv_bind H.
      apply IH in H. rewrite H, dict_keys_set.
      apply py_get_ok in E0. destruct E0 as (u & -> & ->). reflexivity.
Qed.

Lemma make_row_keys (tcol : string) (ts wd units : value) (i : nat) (row : dict) :
  make_row tcol ts wd units i = Ok row ->
  exists d, wd = VDict d /\
            dict_keys row = tcol :: uniq_from [tcol] (var_labels d units).
Proof.
  unfold make_row. intros H. inv_bind H. inv_bind H.
  destruct wd; simpl in E0; try discriminate. injection E0 as <-.
  exists d. split; [reflexivity|].
  apply fill_row_keys in H. rewrite H, fold_add_label. reflexivity.
Qed.

Lemma uniq_from_spec (seen l : list string) :
  NoDup (uniq_from seen l) /\
  forall x, In x (uniq_from seen l) -> In x l /\ ~ In x seen.
Proof.
  revert seen. induction l as [|y l IH]; intros seen; simpl.
  - split; [constructor | intros ? []].
  - destruct (existsb (String.eqb y) seen) eqn:E.
    + destruct (IH seen) as (ND & H). split; [assumption|].
      intros x Hx. destruct (H x Hx). auto.
    + destruct (IH (seen ++ [y])%list) as (ND & H). split.
      * constructor; [|assumption]. intros Hy. apply H in Hy.
        destruct Hy as (_ & Hy). apply Hy, in_or_app. right. now left.
      * intros x [->|Hx].
        -- split; [now left|]. intros Hin. apply existsb_eqb_In in Hin. congruence.
        -- apply H in Hx. destruct Hx as (Hl & Hs). split; [now right|].
           intros Hin. apply Hs, in_or_app. now left.
Qed.

Lemma row_keys_nodup (tcol : string) (labels : list string) :
  NoDup (tcol :: uniq_from [tcol] labels).
Proof.
  destruct (uniq_from_spec [tcol] labels) as (ND & H).
  constructor; [|assumption].
  intros Hin. apply H in Hin. destruct Hin as (_ & Hn). apply Hn. now left.
Qed.

(** What a successful reshaping tells about the response. *)
Lemma reshape_ok (data : value) (data_key : string) (rows : list dict) :
  reshape data data_key = Ok rows ->
  exists d wd n,
    data = VDict d /\ dict_get data_key d = Some (VDict wd) /\
    py_len (timestamps_of wd) = Ok n /\
    Forall2 (fun i r => make_row (time_col_name (timezone_of d)) (timestamps_of wd)
                          (VDict wd) (units_of d data_key) i = Ok r)
            (seq 0 n) rows.
Proof.
  unfold reshape. intros H.
  inv_bind H. inv_bind H. inv_bind H. inv_bind H. inv_bind H.
  apply py_get_ok in E0, E1, E2.
  destruct E0 as (d & -> & ->), E1 as (d' & Hd & ->), E2 as (wd & -> & ->).
  injection Hd as <-.
  simpl in E. destruct (dict_get data_key d) as [w|] eqn:G; [|discriminate].
  injection E as ->.
  apply rows_loop_ok in H. destruct H as (new & -> & F).
  exists d, wd, x3. repeat split; auto.
Qed.

Lemma Forall2_length_seq {B} (P : nat -> B -> Prop) (a n : nat) (l : list B) :
  Forall2 P (seq a n) l -> List.length l = n.
Proof.
  intros F. apply Forall2_length in F. now rewrite length_seq in F.
Qed.

Lemma Forall2_seq_nth {B} (P : nat -> B -> Prop) (n : nat) (l : list B) (def : B) :
  Forall2 P (seq 0 n) l -> forall i, i < n -> P i (nth i l def).
Proof.
  intros F i Hi.
  assert (G : forall a m l', Forall2 P (seq a m) l' ->
                              forall j, j < m -> P (a + j) (nth j l' def)).
  { clear. intros a m. revert a. induction m as [|m IH]; intros a l' F j Hj; [lia|].
    simpl in F. inversion F as [|? y ? l'' Hy F']; subst.
    destruct j as [|j]; simpl.
    - now rewrite Nat.add_0_r.
    - replace (a + S j) with (S a + j) by lia. apply IH; [assumption | lia]. }
  apply (G 0 n l F i Hi).
Qed.

(** The columns of the frame built from the rows of a response: the time
    column, then the labels of the variables. *)
Lemma reshaped_columns (tcol : string) (ts units : value) (wd : dict) (n : nat)
  (rows : list dict) :
  Forall2 (fun i r => make_row tcol ts (VDict wd) units i = Ok r) (seq 0 n) rows ->
  n <> 0 ->
  columns (of_rows rows) = tcol :: uniq_from [tcol] (var_labels wd units).
Proof.
  intros F Hn. rewrite columns_of_rows.
  apply union_keys_same.
  - apply row_keys_nodup.
  - intros ->. apply Forall2_length in F. rewrite length_seq in F. simpl in F. lia.
  - clear Hn. revert F. generalize (seq 0 n). intros idx F.
    induction F as [|i r idx' rows' Hr F IH]; constructor; [|assumption].
    apply make_row_keys in Hr. destruct Hr as (d & Hd & Hk).
    injection Hd as <-. exact Hk.
Qed.

Lemma prefix_time_not_meta (c : string) :
  String.prefix "time" c = true ->
  String.eqb c "latitude" = false /\ String.eqb c "longitude" = false /\
  String.eqb c "elevation" = false /\ String.eqb c "location" = false.
Proof.
  intros H. repeat split; apply String.eqb_neq; intros ->; discriminate H.
Qed.

Lemma insert_ok (loc : nat) (c : string) (v : value) (df df' : DataFrame) :
  insert loc c v df = Ok df' ->
  has_column c df = false /\ is_scalar v = true /\
  nrows df' = nrows df /\
  cols df' = insert_at loc (c, repeat v (nrows df)) (cols df).
Proof.
  unfold insert. intros H.
  destruct (has_column c df); [discriminate|].
  destruct (is_scalar v); simpl in H; [|discriminate].
  destruct (Nat.ltb _ _); [discriminate|].
  injection H as <-. auto.
Qed.

Lemma reindex_id (n : nat) (s : Series) :
  List.length s = n -> reindex n s = s.
Proof.
  intros <-. unfold reindex.
  apply nth_ext with (d := NaN) (d' := NaN).
  - now rewrite length_map, length_seq.
  - intros i Hi. rewrite length_map, length_seq in Hi.
    rewrite (nth_indep _ NaN (nth 0 s NaN)) by (now rewrite length_map, length_seq).
    rewrite (map_nth (fun i => nth i s NaN)) with (d := 0).
    now rewrite seq_nth.
Qed.


(** The frame [annotate] returns, column by column. *)
Lemma annotate_ok (data : value) (params : dict) (location_name : value)
  (rows : list dict) (df : DataFrame) :
  annotate data params location_name rows = Ok df ->
  exists d tc s,
    data = VDict d /\
    find_time_col (of_rows rows) = Ok tc /\
    column tc (of_rows rows) = Some s /\
    nrows df = List.length rows /\
    cols df =
      ((if truthy location_name
        then [("location", repeat location_name (List.length rows))] else [])
       ++ [("latitude", repeat (metadata "latitude" d params) (List.length rows));
           ("longitude", repeat (metadata "longitude" d params) (List.length rows));
           ("elevation", repeat (metadata "elevation" d params) (List.length rows));
           (tc, reindex (List.length rows) s)]
       ++ remove_column tc (cols (of_rows rows)))%list.
Proof.
  unfold annotate. intros H.
  inv_bind H. inv_bind H. inv_bind H. inv_bind H. inv_bind H. inv_bind H.
  inv_bind H. inv_bind H. inv_bind H.
  apply py_get_ok in E, E0, E1.
  destruct E as (d & -> & ->), E0 as (d0 & Hd0 & ->), E1 as (d1 & Hd1 & ->).
  injection Hd0 as <-. injection Hd1 as <-.
  apply insert_ok in E2, E3, E4.
  destruct E2 as (_ & _ & N2 & C2), E3 as (_ & _ & N3 & C3), E4 as (_ & _ & N4 & C4).
  set (n := List.length rows) in *.
  assert (N0 : nrows (of_rows rows) = n) by reflexivity.
  rewrite N0 in *. rewrite N2 in *. rewrite N3 in *.
  set (c0 := cols (of_rows rows)) in *.
  unfold insert_at in C2; simpl in C2.
  rewrite C2 in C3. unfold insert_at in C3; simpl in C3.
  rewrite C3 in C4. unfold insert_at in C4; simpl in C4.
  clear C2 C3 N2 N3 x2 x3.
  unfold find_time_col, columns in E5. rewrite C4 in E5. simpl in E5.
  assert (T : find_time_col (of_rows rows) = Ok x5) by exact E5.
  assert (P : String.prefix "time" x5 = true).
  { fold c0 in E5. destruct (filter (String.prefix "time") (map fst c0)) eqn:F;
      [discriminate|].
    injection E5 as ->.
    assert (I : In x5 (filter (String.prefix "time") (map fst c0)))
      by (rewrite F; now left).
    apply filter_In in I. tauto. }
  destruct (prefix_time_not_meta x5 P) as (Q1 & Q2 & Q3 & Q4).
  unfold pop, column in E6. rewrite C4 in E6. simpl in E6.
  rewrite Q1, Q2, Q3 in E6.
  destruct (lookup_column x5 c0) as [s|] eqn:L; [|discriminate].
  injection E6 as <-. simpl in E7.
  unfold insert_series in E7. simpl in E7.
  repeat match type of E7 with
         | context [if ?b then _ else _] => destruct b; [discriminate|]
         end.
  injection E7 as <-. unfold insert_at in H. simpl in H.
  exists d, x5, s. repeat split; auto.
  - unfold insert in H.
    destruct (truthy location_name).
    + destruct (has_column _ _); [discriminate|].
      destruct (is_scalar _); simpl in H; [|discriminate]. injection H as <-.
      simpl. rewrite N4. reflexivity.
    + injection H as <-. simpl. rewrite N4. reflexivity.
  - unfold insert in H.
    destruct (truthy location_name).
    + destruct (has_column _ _); [discriminate|].
      destruct (is_scalar _); simpl in H; [|discriminate]. injection H as <-.
      simpl. rewrite N4. reflexivity.
    + injection H as <-. simpl. rewrite N4. reflexivity.
Qed.

(** ** Running the single-location operation *)

Section Runs.

Variable World : Type.
Variable requests_get : string -> dict -> World -> (transport_error + value) * World.

(** The operation, stage by stage. *)
Lemma get_weather_data_df_run (base_url data_key : string) (export : bool)
  (filename location_name : value) (params : dict) (st : state World) :
  get_weather_data_df World requests_get base_url data_key export filename location_name params st =
  match join_hourly params with
  | Raise e => (Raise e, st)
  | Ok params' =>
      let st1 := after_request World requests_get base_url params' st in
      match fst (requests_get base_url params' (net st)) with
      | inl e => (Raise (RequestError e), st1)
      | inr data =>
          match (_ <- check_data_key data data_key ;;
                 rows <- reshape data data_key ;;
                 annotate data params' location_name rows) with
          | Raise e => (Raise e, st1)
          | Ok df =>
              if export && truthy filename
              then bind (to_csv df filename) (fun _ => ret df) st1
              else (Ok df, st1)
          end
      end
  end.
Proof.
  unfold get_weather_data_df, bind, lift, fetch_json, after_request.
  destruct (join_hourly params) as [params'|e]; [|reflexivity].
  destruct (requests_get base_url params' (net st)) as [[e|data] w]; simpl;
    [reflexivity|].
  destruct (check_data_key data data_key) as [[]|e]; simpl; [|reflexivity].
  destruct (reshape data data_key) as [rows|e]; simpl; [|reflexivity].
  destruct (annotate data params' location_name rows) as [df|e]; simpl; [|reflexivity].
  destruct (export && truthy filename); reflexivity.
Qed.

(** A successful call went through every stage. *)
Lemma get_weather_data_df_ok (base_url data_key : string) (export : bool)
  (filename location_name : value) (params : dict) (st st' : state World)
  (df : DataFrame) :
  get_weather_data_df World requests_get base_url data_key export filename location_name params st
  = (Ok df, st') ->
  exists params' data rows,
    join_hourly params = Ok params' /\
    fst (requests_get base_url params' (net st)) = inr data /\
    check_data_key data data_key = Ok tt /\
    reshape data data_key = Ok rows /\
    annotate data params' location_name rows = Ok df /\
    sent st' = (sent st ++ [(base_url, params')])%list /\
    stdout st' = stdout st /\
    (export = false -> files st' = files st).
Proof.
  rewrite get_weather_data_df_run. intros H.
  destruct (join_hourly params) as [params'|e]; [|discriminate].
  cbv zeta in H.
  destruct (fst (requests_get base_url params' (net st))) as [e|data] eqn:G;
    [discriminate|].
  destruct (check_data_key data data_key) as [[]|e] eqn:C; simpl in H; [|discriminate].
  destruct (reshape data data_key) as [rows|e] eqn:R; simpl in H; [|discriminate].
  destruct (annotate data params' location_name rows) as [df0|e] eqn:A; [|discriminate].
  exists params', data, rows.
  destruct (export && truthy filename) eqn:X.
  - unfold bind, to_csv, lift, ret in H. destruct filename; try discriminate H.
    injection H as <- <-. simpl. repeat split; auto.
    intros ->. discriminate X.
  - injection H as <- <-. simpl. repeat split; auto.
Qed.


Lemma time_col_name_prefix (timezone : value) :
  String.prefix "time" (time_col_name timezone) = true.
Proof.
  unfold time_col_name. destruct (truthy timezone); reflexivity.
Qed.

Lemma join_hourly_get_other (params params' : dict) (k : string) :
  join_hourly params = Ok params' -> k <> "hourly" ->
  dict_get k params' = dict_get k params.
Proof.
  unfold join_hourly. intros H N.
  destruct (dict_get "hourly" params) as [[]|]; try (injection H as <-; reflexivity).
  inv_bind H. injection H as <-. now apply dict_get_set_other.
Qed.

Lemma metadata_join_hourly (params params' : dict) (field : string) (d : dict) :
  join_hourly params = Ok params' -> field <> "hourly" ->
  metadata field d params' = metadata field d params.
Proof.
  intros H N. unfold metadata. now rewrite (join_hourly_get_other _ _ _ H N).
Qed.

(** The frame of a successful call, in terms of the response. *)
Lemma table_shape (base_url data_key : string) (export : bool)
  (filename location_name : value) (params : dict) (st st' : state World)
  (df : DataFrame) :
  get_weather_data_df World requests_get base_url data_key export filename
    location_name params st = (Ok df, st') ->
  exists params' d wd n rows,
    join_hourly params = Ok params' /\
    fst (requests_get base_url params' (net st)) = inr (VDict d) /\
    dict_get data_key d = Some (VDict wd) /\
    py_len (timestamps_of wd) = Ok n /\
    Forall2 (fun i r => make_row (time_col_name (timezone_of d)) (timestamps_of wd)
                          (VDict wd) (units_of d data_key) i = Ok r)
            (seq 0 n) rows /\
    annotate (VDict d) params' location_name rows = Ok df /\
    nrows df = n /\
    cols df =
      ((if truthy location_name then [("location", repeat location_name n)] else [])
       ++ [("latitude", repeat (metadata "latitude" d params) n);
           ("longitude", repeat (metadata "longitude" d params) n);
           ("elevation", repeat (metadata "elevation" d params) n)]
       ++ map (fun c => (c, map (dict_get_default c NaN) rows))
              (time_col_name (timezone_of d)
               :: uniq_from [time_col_name (timezone_of d)]
                    (var_labels wd (units_of d data_key))))%list.
Proof.
  intros H. apply get_weather_data_df_ok in H.
  destruct H as (params' & data & rows & J & G & _ & R & A & _).
  destruct (reshape_ok _ _ _ R) as (d & wd & n & -> & Hwd & Hn & F).
  destruct (annotate_ok _ _ _ _ _ A) as (d' & tc & s & Hd & T & Cs & N & Cdf).
  injection Hd as <-.
  pose proof (Forall2_length_seq _ _ _ _ F) as L.
  assert (Hn0 : n <> 0).
  { intros ->. destruct rows; [|discriminate L]. discriminate T. }
  pose proof (reshaped_columns _ _ _ _ _ _ F Hn0) as K.
  set (tcol := time_col_name (timezone_of d)) in *.
  rewrite columns_of_rows in K.
  assert (C0 : cols (of_rows rows)
               = map (fun c => (c, map (dict_get_default c NaN) rows))
                     (tcol :: uniq_from [tcol] (var_labels wd (units_of d data_key))))
    by (unfold of_rows; cbn [cols]; now rewrite K).
  cbn [map] in C0.
  unfold find_time_col, columns in T. rewrite C0 in T. cbn [map fst filter] in T.
  unfold tcol in T at 1. rewrite time_col_name_prefix in T. injection T as <-.
  unfold column in Cs. rewrite C0 in Cs, Cdf. cbn [lookup_column remove_column] in Cs, Cdf.
  rewrite String.eqb_refl in Cs, Cdf. injection Cs as <-.
  rewrite reindex_id in Cdf by apply length_map.
  exists params', d, wd, n, rows.
  rewrite L in *.
  rewrite !(metadata_join_hourly _ _ _ _ J) in Cdf by discriminate.
  repeat split; auto.
Qed.

(** ** The properties *)

(** A frame came out of the reshaping loop only if the time entry is a
    sequence: its length is the [len] the loop has counted to. *)
Lemma timestamps_are_a_sequence (tcol : string) (ts wd units : value) (n : nat)
  (rows : list dict) :
  py_len ts = Ok n -> rows <> [] ->
  Forall2 (fun i r => make_row tcol ts wd units i = Ok r) (seq 0 n) rows ->
  seq_len ts = Some n.
Proof.
  intros Hn NE F.
  destruct n as [|n].
  { inversion F; subst. congruence. }
  simpl in F. inversion F as [|? r ? ? H0 _]; subst.
  unfold make_row in H0. inv_bind H0.
  destruct ts; simpl in *; try discriminate; congruence.
Qed.

(** C1. When [get_weather_data_df] returns a table, the response has the
    data key, the time entry under it is an array (a sequence), and the
    table has exactly as many rows as that array has timestamps: its index
    has that length, each of its columns has that many cells, and it is
    built from one row for each index [i] from 0 to [len(timestamps)-1], the
    row the reshaping loop builds for [i]. *)
Theorem row_count_is_timestamp_count (base_url data_key : string) (export : bool)
  (filename location_name : value) (params : dict) (st st' : state World)
  (df : DataFrame) :
  get_weather_data_df World requests_get base_url data_key export filename
    location_name params st = (Ok df, st') ->
  exists params' d wd n rows,
    join_hourly params = Ok params' /\
    fst (requests_get base_url params' (net st)) = inr (VDict d) /\
    dict_get data_key d = Some (VDict wd) /\
    seq_len (timestamps_of wd) = Some n /\
    (forall timestamps, dict_get "time" wd = Some (VList timestamps) ->
                        nrows df = List.length timestamps) /\
    nrows df = n /\
    Forall (fun col => List.length (snd col) = n) (cols df) /\
    List.length rows = n /\
    (forall i, i < n ->
       make_row (time_col_name (timezone_of d)) (timestamps_of wd) (VDict wd)
                (units_of d data_key) i = Ok (nth i rows [])) /\
    annotate (VDict d) params' location_name rows = Ok df.
Proof.
  intros H. apply table_shape in H.
  destruct H as (params' & d & wd & n & rows & J & G & Hwd & Hn & F & A & N & C).
  pose proof (Forall2_length_seq _ _ _ _ F) as L.
  assert (NE : rows <> []).
  { intros ->. apply annotate_ok in A.
    destruct A as (? & ? & ? & _ & T & _). discriminate T. }
  pose proof (timestamps_are_a_sequence _ _ _ _ _ _ Hn NE F) as S.
  exists params', d, wd, n, rows.
  split; [exact J|]. split; [exact G|]. split; [exact Hwd|]. split; [exact S|].
  split.
  { intros timestamps T. unfold timestamps_of, dict_get_default in S.
    rewrite T in S. simpl in S. congruence. }
  repeat split; auto.
  - rewrite C. repeat (apply Forall_app; split).
    + destruct (truthy location_name); repeat constructor. apply repeat_length.
    + repeat constructor; apply repeat_length.
    + apply Forall_map, Forall_forall. intros c _. cbn [snd].
      now rewrite length_map.
  - intros i Hi.
    apply (Forall2_seq_nth
             (fun i r => make_row (time_col_name (timezone_of d)) (timestamps_of wd)
                           (VDict wd) (units_of d data_key) i = Ok r) n rows [] F i Hi).
Qed.

(** C2. When [get_weather_data_df] returns a table, its columns are, in
    order: ["location"] when a (non-empty) location label was given, then
    ["latitude"], ["longitude"], ["elevation"], the time column, and then
    the labels of the other variables in the order the series of the
    response has them (a label that comes twice, or equals the time label,
    is one column, at its first place).  When the labels are distinct these
    are exactly the labels of the variables. *)
Theorem column_order (base_url data_key : string) (export : bool)
  (filename location_name : value) (params : dict) (st st' : state World)
  (df : DataFrame) :
  get_weather_data_df World requests_get base_url data_key export filename
    location_name params st = (Ok df, st') ->
  exists params' d wd,
    join_hourly params = Ok params' /\
    fst (requests_get base_url params' (net st)) = inr (VDict d) /\
    dict_get data_key d = Some (VDict wd) /\
    let tcol := time_col_name (timezone_of d) in
    let labels := var_labels wd (units_of d data_key) in
    columns df =
      (location_columns location_name
       ++ ["latitude"; "longitude"; "elevation"; tcol]
       ++ uniq_from [tcol] labels)%list /\
    (NoDup (tcol :: labels) ->
     columns df =
       (location_columns location_name
        ++ ["latitude"; "longitude"; "elevation"; tcol] ++ labels)%list).
Proof.
  intros H. apply table_shape in H.
  destruct H as (params' & d & wd & n & rows & J & G & Hwd & Hn & F & A & N & C).
  exists params', d, wd.
  split; [exact J|]. split; [exact G|]. split; [exact Hwd|].
  assert (E : columns df =
              (location_columns location_name
               ++ ["latitude"; "longitude"; "elevation"; time_col_name (timezone_of d)]
               ++ uniq_from [time_col_name (timezone_of d)]
                    (var_labels wd (units_of d data_key)))%list).
  { unfold columns, location_columns. rewrite C, !map_app, map_map.
    cbn [fst]. rewrite map_id.
    destruct (truthy location_name); reflexivity. }
  cbv zeta. split; [exact E|].
  intros ND. rewrite E. inversion ND as [|? ? Hnot ND']; subst.
  rewrite uniq_from_nodup; [reflexivity | assumption |].
  intros x Hx [Ex|[]]. apply Hnot. rewrite Ex. exact Hx.
Qed.

(** C7. When [get_weather_data_df] returns a table for a response whose
    latitude, longitude and elevation are scalars (numbers, strings, [null],
    not arrays or objects), every cell of its ["latitude"] column holds the
    ["latitude"] field of the response when the response has that field,
    else the ["latitude"] query parameter, else [None]; and likewise for
    ["longitude"] and ["elevation"]. *)
Theorem metadata_columns (base_url data_key : string) (export : bool)
  (filename location_name : value) (params params' : dict) (d : dict)
  (st st' : state World) (df : DataFrame) :
  join_hourly params = Ok params' ->
  fst (requests_get base_url params' (net st)) = inr (VDict d) ->
  is_scalar (metadata "latitude" d params) = true ->
  is_scalar (metadata "longitude" d params) = true ->
  is_scalar (metadata "elevation" d params) = true ->
  get_weather_data_df World requests_get base_url data_key export filename
    location_name params st = (Ok df, st') ->
  column "latitude" df = Some (repeat (metadata "latitude" d params) (nrows df)) /\
  column "longitude" df = Some (repeat (metadata "longitude" d params) (nrows df)) /\
  column "elevation" df = Some (repeat (metadata "elevation" d params) (nrows df)).
Proof.
  intros J0 G0 _ _ _ H. apply table_shape in H.
  destruct H as (params1 & d1 & wd & n & rows & J & G & Hwd & Hn & F & A & N & C).
  rewrite J0 in J. injection J as <-.
  rewrite G0 in G. injection G as <-.
  unfold column. rewrite C, N.
  destruct (truthy location_name); simpl; auto.
Qed.

Lemma prefix_app (a b : string) : String.prefix a (a ++ b) = true.
Proof.
  induction a as [|c a IH]; simpl.
  - now destruct b.
  - destruct (ascii_dec c c); [assumption | congruence].
Qed.

Lemma str_contains_app (k a b : string) : str_contains k (a ++ k ++ b) = true.
Proof.
  induction a as [|c a IH].
  - change (str_contains k (k ++ b) = true).
    assert (U : forall h, String.prefix k h = true -> str_contains k h = true)
      by (intros h P; destruct h; unfold str_contains; fold str_contains;
          rewrite P; reflexivity).
    apply U, prefix_app.
  - simpl. rewrite IH. apply orb_true_r.
Qed.

(** C3. When the parsed response lacks the data key, [get_weather_data_df]
    raises [KeyError] with the message ['<data_key>' not found in the
    response], which has the name of the missing key in it; no table is
    returned, and nothing is written. *)
Theorem missing_data_key_raises_KeyError (base_url data_key : string) (export : bool)
  (filename location_name : value) (params params' : dict) (data : value)
  (st : state World) :
  join_hourly params = Ok params' ->
  fst (requests_get base_url params' (net st)) = inr data ->
  py_contains data data_key = Ok false ->
  let message := "'" ++ data_key ++ "' not found in the response" in
  get_weather_data_df World requests_get base_url data_key export filename
    location_name params st
  = (Raise (KeyError message), after_request World requests_get base_url params' st)
  /\ str_contains data_key message = true
  /\ files (after_request World requests_get base_url params' st) = files st.
Proof.
  intros J G C message. split; [|split].
  - rewrite get_weather_data_df_run, J. cbv zeta. rewrite G.
    unfold check_data_key. rewrite C. reflexivity.
  - apply str_contains_app.
  - reflexivity.
Qed.

Lemma str_items_map (names : list string) : str_items (map VStr names) = Ok names.
Proof.
  induction names as [|s names IH]; simpl; [reflexivity|]. now rewrite IH.
Qed.

Lemma dict_keys_set_present (k : string) (v : value) (d : dict) :
  dict_get k d <> None -> dict_keys (dict_set k v d) = dict_keys d.
Proof.
  intros H. rewrite dict_keys_set. unfold add_label.
  apply dict_get_in_keys, existsb_eqb_In in H. now rewrite H.
Qed.

(** The request is sent with the parameters [join_hourly] gives, whatever
    happens afterwards. *)
Lemma request_sent (base_url data_key : string) (export : bool)
  (filename location_name : value) (params params' : dict) (st : state World) :
  join_hourly params = Ok params' ->
  sent (snd (get_weather_data_df World requests_get base_url data_key export filename
               location_name params st))
  = (sent st ++ [(base_url, params')])%list.
Proof.
  intros J. rewrite get_weather_data_df_run, J. cbv zeta.
  destruct (fst (requests_get base_url params' (net st))); [reflexivity|].
  destruct (_ <- check_data_key v data_key ;; _); [|reflexivity].
  destruct (export && truthy filename); [|reflexivity].
  unfold bind, to_csv, lift, ret. destruct filename; reflexivity.
Qed.

Lemma join_commas (names : list string) : join "," names = comma_separated names.
Proof.
  induction names as [|name more IH]; [reflexivity|].
  destruct more as [|next more]; [reflexivity|].
  change (join "," (name :: next :: more))
    with (name ++ "," ++ join "," (next :: more)).
  now rewrite IH.
Qed.

(** C5. When the ["hourly"] parameter is a list of strings,
    [get_weather_data_df] sends it as one string: the items in order with a
    comma between each two of them (["temperature_2m,precipitation"] for the
    two items ["temperature_2m"] and ["precipitation"]); the other parameters
    are sent as given, in the same order. *)
Theorem hourly_list_is_comma_joined (base_url data_key : string) (export : bool)
  (filename location_name : value) (params : dict) (names : list string)
  (st : state World) :
  dict_get "hourly" params = Some (VList (map VStr names)) ->
  exists params',
    sent (snd (get_weather_data_df World requests_get base_url data_key export
                 filename location_name params st))
    = (sent st ++ [(base_url, params')])%list /\
    dict_get "hourly" params' = Some (VStr (comma_separated names)) /\
    (forall a b, names = [a; b] ->
                 dict_get "hourly" params' = Some (VStr (a ++ "," ++ b))) /\
    dict_keys params' = dict_keys params /\
    forall k, k <> "hourly" -> dict_get k params' = dict_get k params.
Proof.
  intros H.
  assert (J : join_hourly params
              = Ok (dict_set "hourly" (VStr (comma_separated names)) params)).
  { unfold join_hourly, py_join. rewrite H, str_items_map. cbn [rbind].
    now rewrite join_commas. }
  eexists. split; [apply request_sent, J|]. split; [apply dict_get_set_same|].
  split; [intros a b ->; apply dict_get_set_same|].
  split.
  - apply dict_keys_set_present. rewrite H. discriminate.
  - intros k N. now apply dict_get_set_other.
Qed.

(** C10. Only the parameter named ["hourly"] is joined: a list under any
    other name is sent as the list it is, and this does not depend on
    [data_key]. *)
Theorem only_hourly_is_joined (base_url data_key : string) (export : bool)
  (filename location_name : value) (params params' : dict) (k : string)
  (l : list value) (st : state World) :
  k <> "hourly" ->
  dict_get k params = Some (VList l) ->
  join_hourly params = Ok params' ->
  sent (snd (get_weather_data_df World requests_get base_url data_key export
               filename location_name params st))
  = (sent st ++ [(base_url, params')])%list /\
  dict_get k params' = Some (VList l).
Proof.
  intros N H J. split; [apply request_sent, J|].
  now rewrite (join_hourly_get_other _ _ _ J N).
Qed.

Lemma uniq_from_complete (seen l : list string) (x : string) :
  In x l -> In x seen \/ In x (uniq_from seen l).
Proof.
  revert seen. induction l as [|y l IH]; intros seen H; simpl; [destruct H|].
  destruct H as [->|H].
  - destruct (existsb (String.eqb x) seen) eqn:E.
    + left. now apply existsb_eqb_In.
    + right. now left.
  - destruct (existsb (String.eqb y) seen) eqn:E.
    + apply IH, H.
    + destruct (IH (seen ++ [y])%list H) as [Hs|Hu].
      * apply in_app_or in Hs. destruct Hs as [Hs|[->|[]]]; [now left|].
        right. now left.
      * right. now right.
Qed.

Lemma fill_row_units_dict (wd units : value) (i : nat) (keys : list string)
  (row row' : dict) (key : string) :
  fill_row wd units i keys row = Ok row' -> In key keys -> key <> "time" ->
  exists u, units = VDict u.
Proof.
  revert row. induction keys as [|k keys IH]; intros row H K N; [destruct K|].
  simpl in H. destruct (String.eqb k "time") eqn:T; simpl in H.
  - destruct K as [->|K]; [apply String.eqb_eq in T; contradiction|].
    eapply IH; eauto.
  - inv_bind H. apply py_get_ok in E. destruct E as (u & -> & _). eauto.
Qed.

(** C4, as the code has it.  In a row the reshaping loop builds, a variable
    other than ["time"] has the label [variable (unit)] - the name, a space,
    the unit in parentheses - when the units mapping gives it a non-empty
    unit string, and the bare name when the mapping has no unit for it or an
    empty one. *)
Theorem variable_label (tcol : string) (timestamps units : value) (wd : dict)
  (i : nat) (row : dict) (key : string) :
  make_row tcol timestamps (VDict wd) units i = Ok row ->
  In key (dict_keys wd) -> key <> "time" ->
  exists u,
    units = VDict u /\
    In (label key (dict_get_default key (VStr EmptyString) u)) (dict_keys row) /\
    (forall s, dict_get key u = Some (VStr s) -> s <> EmptyString ->
               label key (dict_get_default key (VStr EmptyString) u)
               = key ++ " (" ++ s ++ ")") /\
    (dict_get key u = None \/ dict_get key u = Some (VStr EmptyString) ->
     label key (dict_get_default key (VStr EmptyString) u) = key).
Proof.
  intros H K N.
  assert (V : In key (variables wd)).
  { apply filter_In. split; [assumption|]. apply String.eqb_neq in N. now rewrite N. }
  assert (U : exists u, units = VDict u).
  { unfold make_row in H. inv_bind H. inv_bind H. simpl in E0. injection E0 as <-.
    eapply fill_row_units_dict; eauto. }
  destruct U as (u & ->). exists u. split; [reflexivity|].
  apply make_row_keys in H. destruct H as (d & Hd & Hk). injection Hd as <-.
  split; [|split].
  - rewrite Hk.
    assert (L : In (label key (unit_of (VDict u) key)) (var_labels wd (VDict u)))
      by (unfold var_labels; apply in_map_iff; eauto).
    destruct (uniq_from_complete [tcol] _ _ L) as [[Ex|[]]|Hu];
      [left; exact Ex | right; exact Hu].
  - intros s Hs Ns. unfold dict_get_default, label. rewrite Hs. simpl.
    apply String.eqb_neq in Ns. now rewrite Ns.
  - intros [Hs|Hs]; unfold dict_get_default, label; rewrite Hs; reflexivity.
Qed.

Lemma string_get_lt (s : string) (i : nat) :
  i < String.length s -> exists c, String.get i s = Some c.
Proof.
  revert i. induction s as [|c s IH]; intros i H; simpl in *; [lia|].
  destruct i as [|i]; [eauto|]. apply IH. lia.
Qed.

Lemma string_get_ge (s : string) (i : nat) :
  String.length s <= i -> String.get i s = None.
Proof.
  revert i. induction s as [|c s IH]; intros i H; simpl in *.
  - now destruct i.
  - destruct i as [|i]; [lia|]. apply IH. lia.
Qed.

(** Indexing a sequence: inside its length an element, past it
    [IndexError]. *)
Lemma getitem_in_range (s : value) (len i : nat) :
  seq_len s = Some len -> i < len -> exists x, py_getitem_int s i = Ok x.
Proof.
  destruct s; simpl; intros H Hi; try discriminate; injection H as <-.
  - destruct (string_get_lt s i Hi) as (c & ->). eauto.
  - destruct (nth_error l i) eqn:E; [eauto|].
    apply nth_error_None in E. lia.
Qed.

Lemma getitem_out_of_range (s : value) (len i : nat) :
  seq_len s = Some len -> len <= i -> py_getitem_int s i = Raise IndexError.
Proof.
  destruct s; simpl; intros H Hi; try discriminate; injection H as <-.
  - now rewrite string_get_ge.
  - apply nth_error_None in Hi. now rewrite Hi.
Qed.

Lemma fill_row_in_range (wd u : dict) (i : nat) (keys : list string) (row : dict) :
  (forall key, In key keys -> key <> "time" ->
     exists len, series_len wd key = Some len /\ i < len) ->
  exists row', fill_row (VDict wd) (VDict u) i keys row = Ok row'.
Proof.
  revert row. induction keys as [|k keys IH]; intros row H; [simpl; eauto|].
  cbn [fill_row]. destruct (String.eqb k "time") eqn:T;
    cbn [negb rbind py_get py_getitem_str].
  - apply IH. intros key K. apply H. now right.
  - apply String.eqb_neq in T.
    destruct (H k (or_introl eq_refl) T) as (len & L & Hi).
    unfold series_len in L. destruct (dict_get k wd) as [s|]; [|discriminate].
    cbn [rbind]. destruct (getitem_in_range s len i L Hi) as (x & ->). cbn [rbind].
    apply IH. intros key K. apply H. now right.
Qed.

Lemma fill_row_out_of_range (wd u : dict) (i : nat) (keys : list string) (row : dict) :
  (forall key, In key keys -> key <> "time" -> exists len, series_len wd key = Some len) ->
  (exists key len, In key keys /\ key <> "time" /\
                   series_len wd key = Some len /\ len <= i) ->
  fill_row (VDict wd) (VDict u) i keys row = Raise IndexError.
Proof.
  revert row. induction keys as [|k keys IH]; intros row H (key & len & K & N & L & Hi);
    [destruct K|].
  cbn [fill_row]. destruct (String.eqb k "time") eqn:T;
    cbn [negb rbind py_get py_getitem_str].
  - destruct K as [->|K]; [apply String.eqb_eq in T; contradiction|].
    apply IH; [intros key' K'; apply H; now right | eauto 6].
  - apply String.eqb_neq in T.
    destruct (H k (or_introl eq_refl) T) as (len' & L').
    pose proof L' as L''.
    unfold series_len in L'. destruct (dict_get k wd) as [s|]; [|discriminate].
    destruct (Nat.le_gt_cases len' i) as [Hle|Hgt].
    + cbn [rbind]. now rewrite (getitem_out_of_range s len' i L' Hle).
    + cbn [rbind]. destruct (getitem_in_range s len' i L' Hgt) as (x & ->). cbn [rbind].
      apply IH; [intros key' K'; apply H; now right|].
      destruct K as [->|K]; [|eauto 6].
      rewrite L in L''. injection L'' as ->. lia.
Qed.

(** C8. When the series of some variable is shorter than the timestamp
    array, the reshaping loop raises [IndexError] - not an error of its
    own - at the first index past the length [m] of the shortest series:
    the rows for the indices below [m] are built, the row for [m] is not.
    Nothing checks the lengths before the loop. *)
Theorem short_series_raises_IndexError (base_url data_key : string) (export : bool)
  (filename location_name : value) (params params' : dict) (d wd u : dict)
  (n m : nat) (st : state World) :
  join_hourly params = Ok params' ->
  fst (requests_get base_url params' (net st)) = inr (VDict d) ->
  dict_get data_key d = Some (VDict wd) ->
  units_of d data_key = VDict u ->
  seq_len (timestamps_of wd) = Some n ->
  (forall key, In key (variables wd) ->
     exists len, series_len wd key = Some len /\ m <= len) ->
  (exists key, In key (variables wd) /\ series_len wd key = Some m) ->
  m < n ->
  let mk := make_row (time_col_name (timezone_of d)) (timestamps_of wd)
                     (VDict wd) (VDict u) in
  (forall i, i < m -> exists row, mk i = Ok row) /\
  mk m = Raise IndexError /\
  reshape (VDict d) data_key = Raise IndexError /\
  get_weather_data_df World requests_get base_url data_key export filename
    location_name params st
  = (Raise IndexError, after_request World requests_get base_url params' st).
Proof.
  intros J G Hwd Hu Hn Hall (short & Hin & Hshort) Hm mk.
  assert (V : forall key, In key (dict_keys wd) -> key <> "time" ->
                          In key (variables wd)).
  { intros key K N. apply filter_In. split; [assumption|].
    apply String.eqb_neq in N. now rewrite N. }
  assert (Nshort : short <> "time").
  { apply filter_In in Hin. destruct Hin as (_ & Hin).
    intros ->. discriminate Hin. }
  assert (Kshort : In short (dict_keys wd)) by (apply filter_In in Hin; tauto).
  assert (Hbelow : forall i, i < m -> exists row, mk i = Ok row).
  { intros i Hi. unfold mk, make_row.
    destruct (getitem_in_range _ n i Hn ltac:(lia)) as (t & ->). simpl.
    apply fill_row_in_range. intros key K N.
    destruct (Hall key (V key K N)) as (len & L & Hlen). exists len. split; [assumption|lia]. }
  assert (Hat : mk m = Raise IndexError).
  { unfold mk, make_row.
    destruct (getitem_in_range _ n m Hn Hm) as (t & ->). simpl.
    apply fill_row_out_of_range.
    - intros key K N. destruct (Hall key (V key K N)) as (len & L & _). eauto.
    - exists short, m. auto. }
  assert (R : reshape (VDict d) data_key = Raise IndexError).
  { unfold reshape. simpl. rewrite Hwd. simpl. fold (units_of d data_key).
    rewrite Hu. fold (timezone_of d). fold (timestamps_of wd).
    assert (Hlen : py_len (timestamps_of wd) = Ok n).
    { destruct (timestamps_of wd); simpl in *; try discriminate; congruence. }
    rewrite Hlen. simpl.
    replace n with (m + S (n - S m)) by lia.
    rewrite seq_app. simpl.
    apply rows_loop_raise; [|exact Hat].
    intros j Hj. apply in_seq in Hj. apply Hbelow. lia. }
  repeat split; auto.
  rewrite get_weather_data_df_run, J. cbv zeta. rewrite G.
  unfold check_data_key. simpl. unfold dict_mem. rewrite Hwd. simpl.
  rewrite R. reflexivity.
Qed.

Lemma rows_exist (mk : nat -> result dict) (indices : list nat) :
  (forall i, In i indices -> exists r, mk i = Ok r) ->
  exists rows, Forall2 (fun i r => mk i = Ok r) indices rows.
Proof.
  induction indices as [|i indices IH]; intros H.
  - exists []. constructor.
  - destruct (H i (or_introl eq_refl)) as (r & Hr).
    destruct IH as (rows & F); [intros j Hj; apply H; now right|].
    exists (r :: rows). now constructor.
Qed.

Lemma insert_scalar (loc : nat) (c : string) (v : value) (df : DataFrame) :
  has_column c df = false -> is_scalar v = true -> loc <= List.length (cols df) ->
  insert loc c v df
  = Ok {| nrows := nrows df; cols := insert_at loc (c, repeat v (nrows df)) (cols df) |}.
Proof.
  intros H S L. unfold insert. rewrite H, S. simpl.
  apply Nat.ltb_ge in L. now rewrite L.
Qed.




(** C9. When the response has the data key but the series under it has no
    ["time"] array, or an empty one, the reshaping loop builds no row, the
    frame gets no time column, and [get_weather_data_df] raises
    [IndexError] where it looks for that column: it does not return an
    empty table.  (The latitude, longitude and elevation are scalars, as in
    every response of the API.) *)
Theorem no_timestamps_raises_IndexError (base_url data_key : string) (export : bool)
  (filename location_name : value) (params params' : dict) (d wd : dict)
  (st : state World) :
  join_hourly params = Ok params' ->
  fst (requests_get base_url params' (net st)) = inr (VDict d) ->
  dict_get data_key d = Some (VDict wd) ->
  dict_get "time" wd = None \/ dict_get "time" wd = Some (VList []) ->
  is_scalar (metadata "latitude" d params) = true ->
  is_scalar (metadata "longitude" d params) = true ->
  is_scalar (metadata "elevation" d params) = true ->
  reshape (VDict d) data_key = Ok [] /\
  find_time_col (of_rows []) = Raise IndexError /\
  get_weather_data_df World requests_get base_url data_key export filename
    location_name params st
  = (Raise IndexError, after_request World requests_get base_url params' st).
Proof.
  intros J G Hwd Ht Slat Slon Sele.
  assert (R : reshape (VDict d) data_key = Ok []).
  { unfold reshape. simpl. rewrite Hwd. simpl.
    assert (T : dict_get_default "time" (VList []) wd = VList [])
      by (unfold dict_get_default; destruct Ht as [-> | ->]; reflexivity).
    rewrite T. reflexivity. }
  split; [exact R|]. split; [reflexivity|].
  rewrite get_weather_data_df_run, J. cbv zeta. rewrite G.
  unfold check_data_key. simpl. unfold dict_mem. rewrite Hwd. simpl.
  rewrite R. simpl.
  rewrite <- (metadata_join_hourly _ _ "latitude" d J) in Slat by discriminate.
  rewrite <- (metadata_join_hourly _ _ "longitude" d J) in Slon by discriminate.
  rewrite <- (metadata_join_hourly _ _ "elevation" d J) in Sele by discriminate.
  unfold annotate. simpl.
  change (dict_get_default "latitude" (dict_get_default "latitude" VNone params') d)
    with (metadata "latitude" d params').
  change (dict_get_default "longitude" (dict_get_default "longitude" VNone params') d)
    with (metadata "longitude" d params').
  change (dict_get_default "elevation" (dict_get_default "elevation" VNone params') d)
    with (metadata "elevation" d params').
  unfold insert. simpl. rewrite Slat. simpl. rewrite Slon. simpl. rewrite Sele.
  reflexivity.
Qed.

(** The loop of the driver: every table it adds comes from one call of the
    single-location operation, and no call writes a file. *)
Lemma locations_loop_ok (base_url data_key : string) (params : dict)
  (items : list (string * (value * value))) (acc dfs : list DataFrame)
  (st st' : state World) :
  locations_loop World requests_get base_url data_key params items acc st = (Ok dfs, st') ->
  exists new,
    dfs = (acc ++ new)%list /\
    tables_for World requests_get base_url data_key params st items new st' /\
    files st' = files st.
Proof.
  revert acc st. induction items as [|[name [lat lon]] items IH]; intros acc st H.
  - simpl in H. injection H as <- <-. exists []. rewrite app_nil_r.
    repeat split. constructor.
  - cbn [locations_loop] in H. unfold bind at 1 in H. unfold print at 1 in H.
    unfold bind at 1 in H. unfold call_get_weather_data_df in H.
    destruct (clashes params); [discriminate H|].
    match type of H with
    | context [get_weather_data_df ?W ?r ?b ?k ?x ?f ?l ?p ?s] =>
        destruct (get_weather_data_df W r b k x f l p s) as [[df|err] st1] eqn:C
    end; [|discriminate H].
    apply IH in H. destruct H as (new & -> & T & F).
    exists (df :: new). rewrite <- app_assoc. split; [reflexivity|]. split.
    + econstructor; eassumption.
    + rewrite F. apply get_weather_data_df_ok in C.
      destruct C as (? & ? & ? & _ & _ & _ & _ & _ & _ & _ & Fc).
      now rewrite Fc.
Qed.

Lemma tables_for_length (base_url data_key : string) (params : dict)
  (st st' : state World) (items : list (string * (value * value)))
  (dfs : list DataFrame) :
  tables_for World requests_get base_url data_key params st items dfs st' ->
  List.length dfs = List.length items.
Proof.
  induction 1; simpl; congruence.
Qed.

(** C6. When [get_weather_data_multiple_locations] returns, it returns one
    table for each location of the mapping, in the order of the mapping;
    each is what [get_weather_data_df] returns when called with the
    latitude and longitude of the location put into the parameters, the name
    of the location as its label and export off.  The export flag of the
    caller changes nothing, and no file is written. *)
Theorem one_table_per_location (base_url data_key : string) (export : bool)
  (params : dict) (locations : list (string * (value * value)))
  (dfs : list DataFrame) (st st' : state World) :
  get_weather_data_multiple_locations World requests_get base_url locations data_key
    export params st = (Ok dfs, st') ->
  List.length dfs = List.length locations /\
  tables_for World requests_get base_url data_key params st locations dfs st' /\
  files st' = files st /\
  forall export',
    get_weather_data_multiple_locations World requests_get base_url locations data_key
      export' params st = (Ok dfs, st').
Proof.
  unfold get_weather_data_multiple_locations. intros H.
  pose proof H as H'. apply locations_loop_ok in H'.
  destruct H' as (new & -> & T & F). simpl.
  repeat split; auto. eapply tables_for_length, T.
Qed.

End Runs.

(** ** The properties on the scenarios *)

Lemma row_count_is_timestamp_count_witness :
  get_weather_data_df script scripted forecast_url "hourly" false VNone (VStr "Pune")
    pune_params (start [inr pune_response]) = (Ok pune_table, pune_after) /\
  exists params' d wd n rows,
    join_hourly pune_params = Ok params' /\
    fst (scripted forecast_url params' (net (start [inr pune_response])))
    = inr (VDict d) /\
    dict_get "hourly" d = Some (VDict wd) /\
    seq_len (timestamps_of wd) = Some n /\
    (forall timestamps, dict_get "time" wd = Some (VList timestamps) ->
                        nrows pune_table = List.length timestamps) /\
    nrows pune_table = n /\
    Forall (fun col => List.length (snd col) = n) (cols pune_table) /\
    List.length rows = n /\
    (forall i, i < n ->
       make_row (time_col_name (timezone_of d)) (timestamps_of wd) (VDict wd)
                (units_of d "hourly") i = Ok (nth i rows [])) /\
    annotate (VDict d) params' (VStr "Pune") rows = Ok pune_table.
Proof.
  assert (H : get_weather_data_df script scripted forecast_url "hourly" false VNone
                (VStr "Pune") pune_params (start [inr pune_response])
              = (Ok pune_table, pune_after)) by reflexivity.
  split; [exact H|].
  exact (row_count_is_timestamp_count script scripted _ _ _ _ _ _ _ _ _ H).
Defined.

Lemma column_order_witness :
  get_weather_data_df script scripted forecast_url "hourly" false VNone (VStr "Nashik")
    nashik_params (start [inr nashik_response]) = (Ok nashik_table, nashik_after) /\
  exists params' d wd,
    join_hourly nashik_params = Ok params' /\
    fst (scripted forecast_url params' (net (start [inr nashik_response])))
    = inr (VDict d) /\
    dict_get "hourly" d = Some (VDict wd) /\
    let tcol := time_col_name (timezone_of d) in
    let labels := var_labels wd (units_of d "hourly") in
    columns nashik_table =
      (location_columns (VStr "Nashik")
       ++ ["latitude"; "longitude"; "elevation"; tcol]
       ++ uniq_from [tcol] labels)%list /\
    (NoDup (tcol :: labels) ->
     columns nashik_table =
       (location_columns (VStr "Nashik")
        ++ ["latitude"; "longitude"; "elevation"; tcol] ++ labels)%list).
Proof.
  assert (H : get_weather_data_df script scripted forecast_url "hourly" false VNone
                (VStr "Nashik") nashik_params (start [inr nashik_response])
              = (Ok nashik_table, nashik_after)) by reflexivity.
  split; [exact H|].
  exact (column_order script scripted _ _ _ _ _ _ _ _ _ H).
Defined.

Lemma missing_data_key_raises_KeyError_witness :
  (join_hourly nashik_params = Ok nashik_sent /\
   fst (scripted forecast_url nashik_sent (net (start [inr daily_response])))
   = inr daily_response /\
   py_contains daily_response "hourly" = Ok false) /\
  (get_weather_data_df script scripted forecast_url "hourly" true (VStr "out.csv")
     VNone nashik_params (start [inr daily_response])
   = (Raise (KeyError "'hourly' not found in the response"),
      after_request script scripted forecast_url nashik_sent (start [inr daily_response]))
   /\ str_contains "hourly" "'hourly' not found in the response" = true
   /\ files (after_request script scripted forecast_url nashik_sent
               (start [inr daily_response]))
      = files (start [inr daily_response])).
Proof.
  assert (J : join_hourly nashik_params = Ok nashik_sent) by reflexivity.
  assert (G : fst (scripted forecast_url nashik_sent (net (start [inr daily_response])))
              = inr daily_response) by reflexivity.
  assert (C : py_contains daily_response "hourly" = Ok false) by reflexivity.
  split; [auto|].
  exact (missing_data_key_raises_KeyError script scripted forecast_url "hourly" true
           (VStr "out.csv") VNone nashik_params nashik_sent daily_response
           (start [inr daily_response]) J G C).
Defined.

(** C4 as stated fails: the code puts a space between the name of the
    variable and the parenthesis.  With the unit [degC], the label of
    ["temperature_2m"] in the row is ["temperature_2m (" ++ degC ++ ")"], not
    ["temperature_2m(" ++ degC ++ ")"]. *)
Lemma label_without_space_counterexample :
  exists row,
    make_row "time (UTC)" (VList [VStr "2024-01-01T00:00"])
      (VDict [("time", VList [VStr "2024-01-01T00:00"]);
              ("temperature_2m", VList [VFloat "5.3"])])
      (VDict [("temperature_2m", VStr degC)]) 0 = Ok row /\
    dict_keys row = ["time (UTC)"; "temperature_2m (" ++ degC ++ ")"] /\
    ~ In ("temperature_2m(" ++ degC ++ ")") (dict_keys row).
Proof.
  eexists. split; [reflexivity|]. split; [reflexivity|].
  simpl. intros [H|[H|[]]]; discriminate H.
Qed.

Lemma variable_label_witness :
  (make_row "time (UTC)" (VList [VStr "2024-01-01T00:00"])
     (VDict [("time", VList [VStr "2024-01-01T00:00"]);
             ("temperature_2m", VList [VFloat "5.3"]);
             ("precipitation", VList [VInt 0])])
     (VDict [("temperature_2m", VStr degC)]) 0
   = Ok [("time (UTC)", VStr "2024-01-01T00:00");
         ("temperature_2m (" ++ degC ++ ")", VFloat "5.3");
         ("precipitation", VInt 0)] /\
   In "temperature_2m" ["time"; "temperature_2m"; "precipitation"] /\
   "temperature_2m" <> "time") /\
  exists u,
    VDict [("temperature_2m", VStr degC)] = VDict u /\
    In (label "temperature_2m" (dict_get_default "temperature_2m" (VStr EmptyString) u))
       ["time (UTC)"; "temperature_2m (" ++ degC ++ ")"; "precipitation"] /\
    (forall s, dict_get "temperature_2m" u = Some (VStr s) -> s <> EmptyString ->
               label "temperature_2m"
                 (dict_get_default "temperature_2m" (VStr EmptyString) u)
               = "temperature_2m" ++ " (" ++ s ++ ")") /\
    (dict_get "temperature_2m" u = None \/
     dict_get "temperature_2m" u = Some (VStr EmptyString) ->
     label "temperature_2m" (dict_get_default "temperature_2m" (VStr EmptyString) u)
     = "temperature_2m").
Proof.
  assert (H : make_row "time (UTC)" (VList [VStr "2024-01-01T00:00"])
                (VDict [("time", VList [VStr "2024-01-01T00:00"]);
                        ("temperature_2m", VList [VFloat "5.3"]);
                        ("precipitation", VList [VInt 0])])
                (VDict [("temperature_2m", VStr degC)]) 0
              = Ok [("time (UTC)", VStr "2024-01-01T00:00");
                    ("temperature_2m (" ++ degC ++ ")", VFloat "5.3");
                    ("precipitation", VInt 0)]) by reflexivity.
  assert (K : In "temperature_2m" ["time"; "temperature_2m"; "precipitation"])
    by (right; left; reflexivity).
  assert (N : "temperature_2m" <> "time") by discriminate.
  split; [auto|].
  exact (variable_label _ _ _ _ _ _ _ H K N).
Defined.

Lemma hourly_list_is_comma_joined_witness :
  dict_get "hourly" nashik_params
  = Some (VList (map VStr ["temperature_2m"; "precipitation"])) /\
  exists params',
    sent (snd (get_weather_data_df script scripted forecast_url "hourly" false VNone
                 (VStr "Nashik") nashik_params (start [inr nashik_response])))
    = (sent (start [inr nashik_response]) ++ [(forecast_url, params')])%list /\
    dict_get "hourly" params' = Some (VStr "temperature_2m,precipitation") /\
    dict_keys params' = ["elevation"; "hourly"] /\
    dict_get "elevation" params' = Some (VInt 7).
Proof.
  assert (H : dict_get "hourly" nashik_params
              = Some (VList (map VStr ["temperature_2m"; "precipitation"])))
    by reflexivity.
  split; [exact H|].
  destruct (hourly_list_is_comma_joined script scripted forecast_url "hourly" false
              VNone (VStr "Nashik") nashik_params ["temperature_2m"; "precipitation"]
              (start [inr nashik_response]) H)
    as (params' & S & _ & L & K & O).
  exists params'. split; [exact S|]. split; [exact (L _ _ eq_refl)|].
  split; [exact K|]. exact (O "elevation" ltac:(discriminate)).
Defined.

Lemma one_table_per_location_witness :
  get_weather_data_multiple_locations script scripted forecast_url two_locations
    "hourly" true [("hourly", VList [VStr "temperature_2m"])]
    (start [inr nashik_response; inr nashik_response])
  = (Ok [table_of "A"; table_of "B"],
     mkState []
       [(forecast_url, [("latitude", VInt 1); ("longitude", VInt 2);
                        ("hourly", VStr "temperature_2m")]);
        (forecast_url, [("latitude", VInt 3); ("longitude", VInt 4);
                        ("hourly", VStr "temperature_2m")])]
       ["Fetching data for A: (1, 2)"; "Fetching data for B: (3, 4)"] []) /\
  List.length [table_of "A"; table_of "B"] = List.length two_locations.
Proof.
  assert (H : get_weather_data_multiple_locations script scripted forecast_url
                two_locations "hourly" true [("hourly", VList [VStr "temperature_2m"])]
                (start [inr nashik_response; inr nashik_response])
              = (Ok [table_of "A"; table_of "B"],
                 mkState []
                   [(forecast_url, [("latitude", VInt 1); ("longitude", VInt 2);
                                    ("hourly", VStr "temperature_2m")]);
                    (forecast_url, [("latitude", VInt 3); ("longitude", VInt 4);
                                    ("hourly", VStr "temperature_2m")])]
                   ["Fetching data for A: (1, 2)"; "Fetching data for B: (3, 4)"] []))
    by reflexivity.
  split; [exact H|].
  exact (proj1 (one_table_per_location script scripted _ _ _ _ _ _ _ _ H)).
Defined.

Lemma metadata_columns_witness :
  (join_hourly pune_params = Ok pune_sent /\
   fst (scripted forecast_url pune_sent (net (start [inr pune_response])))
   = inr pune_response /\
   get_weather_data_df script scripted forecast_url "hourly" false VNone (VStr "Pune")
     pune_params (start [inr pune_response]) = (Ok pune_table, pune_after)) /\
  column "latitude" pune_table = Some [VFloat "18.52"; VFloat "18.52"; VFloat "18.52"] /\
  column "longitude" pune_table = Some [VFloat "73.86"; VFloat "73.86"; VFloat "73.86"] /\
  column "elevation" pune_table = Some [VInt 560; VInt 560; VInt 560].
Proof.
  assert (J : join_hourly pune_params = Ok pune_sent) by reflexivity.
  assert (G : fst (scripted forecast_url pune_sent (net (start [inr pune_response])))
              = inr pune_response) by reflexivity.
  assert (H : get_weather_data_df script scripted forecast_url "hourly" false VNone
                (VStr "Pune") pune_params (start [inr pune_response])
              = (Ok pune_table, pune_after)) by reflexivity.
  split; [auto|].
  exact (metadata_columns script scripted forecast_url "hourly" false VNone
           (VStr "Pune") pune_params pune_sent _ _ _ _ J G eq_refl eq_refl eq_refl H).
Defined.

Lemma short_series_raises_IndexError_witness :
  let d := match short_response with VDict d => d | _ => [] end in
  let wd := match dict_get "hourly" d with Some (VDict wd) => wd | _ => [] end in
  let mk := make_row (time_col_name (timezone_of d)) (timestamps_of wd) (VDict wd)
                     (VDict [("temperature_2m", VStr degC)]) in
  (forall i, i < 2 -> exists row, mk i = Ok row) /\
  mk 2 = Raise IndexError /\
  reshape (VDict d) "hourly" = Raise IndexError /\
  get_weather_data_df script scripted forecast_url "hourly" false VNone VNone
    nashik_params (start [inr short_response])
  = (Raise IndexError,
     after_request script scripted forecast_url nashik_sent (start [inr short_response])).
Proof.
  refine (short_series_raises_IndexError script scripted forecast_url "hourly" false
            VNone VNone nashik_params nashik_sent _ _ _ 3 2
            (start [inr short_response]) _ _ _ _ _ _ _ _);
    try reflexivity.
  - intros key [<-|[<-|[]]].
    + exists 2. split; [reflexivity | lia].
    + exists 3. split; [reflexivity | lia].
  - exists "temperature_2m". split; [left; reflexivity | reflexivity].
  - lia.
Defined.

Lemma no_timestamps_raises_IndexError_witness :
  let d := match empty_response with VDict d => d | _ => [] end in
  reshape (VDict d) "hourly" = Ok [] /\
  find_time_col (of_rows []) = Raise IndexError /\
  get_weather_data_df script scripted forecast_url "hourly" false VNone VNone
    nashik_params (start [inr empty_response])
  = (Raise IndexError,
     after_request script scripted forecast_url nashik_sent (start [inr empty_response])).
Proof.
  refine (no_timestamps_raises_IndexError script scripted forecast_url "hourly" false
            VNone VNone nashik_params nashik_sent _ [("time", VList [])]
            (start [inr empty_response]) _ _ _ _ _ _ _);
    try reflexivity.
  right. reflexivity.
Defined.

Lemma only_hourly_is_joined_witness :
  ("daily" <> "hourly" /\
   dict_get "daily" [("daily", VList [VStr "temperature_2m_max"; VStr "rain_sum"])]
   = Some (VList [VStr "temperature_2m_max"; VStr "rain_sum"])) /\
  sent (snd (get_weather_data_df script scripted forecast_url "daily" false VNone VNone
               [("daily", VList [VStr "temperature_2m_max"; VStr "rain_sum"])]
               (start [inr daily_response])))
  = (sent (start [inr daily_response])
     ++ [(forecast_url,
          [("daily", VList [VStr "temperature_2m_max"; VStr "rain_sum"])])])%list /\
  dict_get "daily" [("daily", VList [VStr "temperature_2m_max"; VStr "rain_sum"])]
  = Some (VList [VStr "temperature_2m_max"; VStr "rain_sum"]).
Proof.
  assert (N : "daily" <> "hourly") by discriminate.
  split; [split; [exact N | reflexivity]|].
  exact (only_hourly_is_joined script scripted forecast_url "daily" false VNone VNone
           [("daily", VList [VStr "temperature_2m_max"; VStr "rain_sum"])]
           [("daily", VList [VStr "temperature_2m_max"; VStr "rain_sum"])]
           "daily" [VStr "temperature_2m_max"; VStr "rain_sum"]
           (start [inr daily_response]) N eq_refl eq_refl).
Defined.

(** ** More on [get_weather_data_df] *)

Lemma add_label_nodup (l : list string) (k : string) :
  NoDup l -> NoDup (add_label l k).
Proof.
  intros ND. unfold add_label.
  destruct (existsb (String.eqb k) l) eqn:E; [assumption|].
  apply NoDup_app; [assumption | repeat constructor; intros [] |].
  intros x Hx [->|[]].
  apply existsb_eqb_In in Hx. congruence.
Qed.

Lemma fold_add_label_nodup (l acc : list string) :
  NoDup acc -> NoDup (fold_left add_label l acc).
Proof.
  revert acc. induction l as [|x l IH]; intros acc ND; simpl; [assumption|].
  apply IH, add_label_nodup, ND.
Qed.

Lemma union_keys_nodup (rows : list dict) : NoDup (union_keys rows).
Proof.
  unfold union_keys. generalize (@nil string) (NoDup_nil string).
  induction rows as [|r rows IH]; intros acc ND; simpl; [assumption|].
  apply IH, fold_add_label_nodup, ND.
Qed.

Lemma has_column_false (c : string) (df : DataFrame) :
  has_column c df = false -> ~ In c (columns df).
Proof.
  unfold has_column. intros H Hin. apply existsb_eqb_In in Hin. congruence.
Qed.

Lemma insert_at_nodup (loc : nat) (c : string) (l : list string) :
  NoDup l -> ~ In c l -> NoDup (insert_at loc c l).
Proof.
  intros ND N. unfold insert_at.
  apply NoDup_Add with (a := c) (l := (firstn loc l ++ skipn loc l)%list).
  - apply Add_app.
  - now rewrite firstn_skipn.
Qed.

Lemma columns_insert_at (loc : nat) (c : string) (s : list value)
  (l : list (string * list value)) :
  map fst (insert_at loc (c, s) l) = insert_at loc c (map fst l).
Proof.
  unfold insert_at. now rewrite map_app, firstn_map, skipn_map.
Qed.

Lemma remove_column_incl (c x : string) (l : list (string * list value)) :
  In x (map fst (remove_column c l)) -> In x (map fst l).
Proof.
  induction l as [|[c' s] l IH]; simpl; [tauto|].
  destruct (String.eqb c c'); simpl; [auto|]. intros [?|?]; auto.
Qed.

Lemma remove_column_nodup (c : string) (l : list (string * list value)) :
  NoDup (map fst l) -> NoDup (map fst (remove_column c l)).
Proof.
  induction l as [|[c' s] l IH]; simpl; intros ND; [constructor|].
  inversion ND as [|? ? Hn ND']; subst.
  destruct (String.eqb c c'); [assumption|]. simpl.
  constructor; [|auto]. intros Hin. apply Hn. eapply remove_column_incl, Hin.
Qed.

(** [annotate] keeps the labels of a frame distinct. *)
Lemma annotate_nodup (data : value) (params : dict) (location_name : value)
  (rows : list dict) (df : DataFrame) :
  annotate data params location_name rows = Ok df -> NoDup (columns df).
Proof.
  unfold annotate. intros H.
  inv_bind H. inv_bind H. inv_bind H. inv_bind H. inv_bind H. inv_bind H.
  inv_bind H. inv_bind H. inv_bind H.
  assert (I : forall loc c v a b, insert loc c v a = Ok b ->
                                  NoDup (columns a) -> NoDup (columns b)).
  { intros loc c v a b Hi ND. apply insert_ok in Hi.
    destruct Hi as (Hc & _ & _ & Hcols). unfold columns. rewrite Hcols, columns_insert_at.
    apply insert_at_nodup; [assumption | now apply has_column_false]. }
  assert (N0 : NoDup (columns (of_rows rows)))
    by (rewrite columns_of_rows; apply union_keys_nodup).
  pose proof (I _ _ _ _ _ E2 N0) as N2.
  pose proof (I _ _ _ _ _ E3 N2) as N3.
  pose proof (I _ _ _ _ _ E4 N3) as N4.
  assert (N6 : NoDup (columns (snd x6))).
  { unfold pop in E6. destruct (column x5 x4); [|discriminate].
    injection E6 as <-. unfold columns. simpl. now apply remove_column_nodup. }
  assert (N7 : NoDup (columns x7)).
  { unfold insert_series in E7.
    destruct (has_column x5 (snd x6)) eqn:Hc; [discriminate|].
    destruct (Nat.ltb _ _); [discriminate|]. injection E7 as <-.
    unfold columns. simpl. rewrite columns_insert_at.
    apply insert_at_nodup; [assumption | now apply has_column_false]. }
  destruct (truthy location_name); [eapply I; eassumption|].
  now injection H as <-.
Qed.

Lemma lookup_column_in (c : string) (s : list value) (l : list (string * list value)) :
  NoDup (map fst l) -> In (c, s) l -> lookup_column c l = Some s.
Proof.
  induction l as [|[c' s'] l IH]; simpl; intros ND H; [destruct H|].
  inversion ND as [|? ? Hn ND']; subst.
  destruct H as [H|H].
  - injection H as -> ->. now rewrite String.eqb_refl.
  - destruct (String.eqb c c') eqn:E; [|auto].
    apply String.eqb_eq in E. subst c'. exfalso. apply Hn.
    apply in_map_iff. exists (c, s). auto.
Qed.

Lemma dict_get_default_some (k : string) (v default : value) (d : dict) :
  dict_get k d = Some v -> dict_get_default k default d = v.
Proof.
  unfold dict_get_default. now intros ->.
Qed.

Lemma nth_row_cell (c : string) (rows : list dict) (i : nat) :
  nth i (map (dict_get_default c NaN) rows) NaN = dict_get_default c NaN (nth i rows []).
Proof.
  exact (map_nth (dict_get_default c NaN) rows [] i).
Qed.

(** What the inner loop leaves under a label no variable has. *)
Lemma fill_row_untouched (wd units : value) (i : nat) (keys : list string)
  (row row' : dict) (l : string) :
  fill_row wd units i keys row = Ok row' ->
  (forall key, In key keys -> key <> "time" -> label key (unit_of units key) <> l) ->
  dict_get l row' = dict_get l row.
Proof.
  revert row. induction keys as [|k keys IH]; intros row H N; simpl in H.
  - now injection H as <-.
  - destruct (String.eqb k "time") eqn:T; simpl in H.
    + apply IH; [assumption|]. intros key K. apply N. now right.
    + inv_bind H. inv_bind H. inv_bind H.
      apply py_get_ok in E. destruct E as (u & -> & ->).
      rewrite (IH _ H) by (intros key K; apply N; now right).
      apply dict_get_set_other. apply String.eqb_neq in T.
      intros ->. now apply (N k (or_introl eq_refl) T).
Qed.

(** What the inner loop leaves under the label of a variable, when no other
    variable has that label. *)
Lemma fill_row_variable (wd : dict) (units : value) (i : nat) (keys : list string)
  (row row' : dict) (key : string) :
  fill_row (VDict wd) units i keys row = Ok row' ->
  In key keys -> key <> "time" ->
  (forall key', In key' keys -> key' <> "time" ->
     label key' (unit_of units key') = label key (unit_of units key) -> key' = key) ->
  exists series x,
    dict_get key wd = Some series /\ py_getitem_int series i = Ok x /\
    dict_get (label key (unit_of units key)) row' = Some x.
Proof.
  revert row. induction keys as [|k keys IH]; intros row H K N U; [destruct K|].
  simpl in H. destruct (String.eqb k "time") eqn:T; simpl in H.
  - destruct K as [->|K]; [apply String.eqb_eq in T; contradiction|].
    apply (IH row H K N). intros key' K'. apply U. now right.
  - destruct (in_dec string_dec key keys) as [Hin|Hout].
    + inv_bind H. inv_bind H. inv_bind H.
      apply (IH _ H Hin N). intros key' K'. apply U. now right.
    + destruct K as [->|K]; [|contradiction].
      pose proof H as H'. inv_bind H. inv_bind H. inv_bind H.
      apply py_get_ok in E. destruct E as (u & -> & ->).
      simpl in E0. destruct (dict_get key wd) as [series|] eqn:G; [|discriminate].
      injection E0 as <-. exists series, x1. repeat split; auto.
      rewrite (fill_row_untouched _ _ _ _ _ _ _ H).
      * apply dict_get_set_same.
      * intros key' K' N' Hl. apply Hout.
        rewrite <- (U key' (or_intror K') N' Hl). exact K'.
Qed.

Lemma existsb_insert_at (c c' : string) (s : list value) (loc : nat)
  (l : list (string * list value)) :
  existsb (String.eqb c) (map fst (insert_at loc (c', s) l))
  = String.eqb c c' || existsb (String.eqb c) (map fst l).
Proof.
  rewrite columns_insert_at.
  unfold insert_at. rewrite existsb_app. cbn [existsb].
  rewrite <- (firstn_skipn loc (map fst l)) at 3. rewrite existsb_app.
  destruct (existsb _ (firstn loc _)), (String.eqb c c'), (existsb _ (skipn loc _));
    reflexivity.
Qed.

Lemma has_column_insert_at (c c' : string) (s : list value) (loc n : nat)
  (l : list (string * list value)) :
  has_column c {| nrows := n; cols := insert_at loc (c', s) l |}
  = String.eqb c c' || existsb (String.eqb c) (map fst l).
Proof.
  unfold has_column, columns. cbn [cols]. apply existsb_insert_at.
Qed.

(** [annotate] refuses a frame that already has one of the three metadata
    labels. *)
Lemma annotate_reserved (d params : dict) (location_name : value) (rows : list dict) :
  (exists c, In c ["latitude"; "longitude"; "elevation"] /\
             has_column c (of_rows rows) = true) ->
  is_scalar (metadata "latitude" d params) = true ->
  is_scalar (metadata "longitude" d params) = true ->
  annotate (VDict d) params location_name rows = Raise ValueError.
Proof.
  intros (c & Hc & Hhas) Slat Slon.
  unfold annotate. cbn [py_get rbind].
  change (dict_get_default "latitude" (dict_get_default "latitude" VNone params) d)
    with (metadata "latitude" d params).
  change (dict_get_default "longitude" (dict_get_default "longitude" VNone params) d)
    with (metadata "longitude" d params).
  destruct (has_column "latitude" (of_rows rows)) eqn:H1.
  { unfold insert at 1. now rewrite H1. }
  rewrite (insert_scalar 0 "latitude") by (auto; apply Nat.le_0_l). cbn [rbind].
  destruct (has_column "longitude" (of_rows rows)) eqn:H2.
  { unfold insert at 1. rewrite has_column_insert_at.
    unfold has_column, columns in H2. rewrite H2, orb_true_r. reflexivity. }
  assert (H2' : has_column "longitude"
                  {| nrows := nrows (of_rows rows);
                     cols := insert_at 0
                               ("latitude",
                                repeat (metadata "latitude" d params) (nrows (of_rows rows)))
                               (cols (of_rows rows)) |} = false).
  { rewrite has_column_insert_at. unfold has_column, columns in H2. now rewrite H2. }
  rewrite (insert_scalar 1 "longitude") by (auto; cbn; lia). cbn [rbind].
  assert (H3 : has_column "elevation" (of_rows rows) = true).
  { destruct Hc as [<-|[<-|[<-|[]]]]; congruence. }
  unfold insert at 1. unfold has_column, columns in *. cbn [nrows cols].
  rewrite !existsb_insert_at, H3, !orb_true_r. reflexivity.
Qed.

Lemma aligned_reshape (data_key : string) (d wd u : dict) (n : nat) :
  dict_get data_key d = Some (VDict wd) ->
  units_of d data_key = VDict u ->
  seq_len (timestamps_of wd) = Some n ->
  aligned wd n ->
  exists rows,
    reshape (VDict d) data_key = Ok rows /\
    Forall2 (fun i r => make_row (time_col_name (timezone_of d)) (timestamps_of wd)
                          (VDict wd) (VDict u) i = Ok r) (seq 0 n) rows.
Proof.
  intros Hwd Hu Hn Hall.
  set (mk := make_row (time_col_name (timezone_of d)) (timestamps_of wd)
                      (VDict wd) (VDict u)).
  destruct (rows_exist mk (seq 0 n)) as (rows & F).
  { intros i Hi. apply in_seq in Hi. unfold mk, make_row.
    destruct (getitem_in_range _ n i Hn ltac:(lia)) as (t & ->). simpl.
    apply fill_row_in_range. intros key K N.
    destruct (Hall key) as (len & L & Hlen).
    - apply filter_In. split; [assumption|].
      apply String.eqb_neq in N. now rewrite N.
    - exists len. split; [assumption | lia]. }
  exists rows. split; [|exact F].
  unfold reshape. simpl. rewrite Hwd. simpl. fold (units_of d data_key).
  rewrite Hu. fold (timezone_of d). fold (timestamps_of wd).
  assert (Hlen : py_len (timestamps_of wd) = Ok n).
  { destruct (timestamps_of wd); simpl in *; try discriminate; congruence. }
  rewrite Hlen. simpl. apply (rows_loop_complete mk (seq 0 n) [] rows F).
Qed.

Section MoreRuns.

Variable World : Type.
Variable requests_get : string -> dict -> World -> (transport_error + value) * World.

(** X1. When the transport fails (no connection, an HTTP error status, a
    body that is not JSON), [get_weather_data_df] raises that error after
    the one request it has sent: it does not try again, returns no table and
    writes no file. *)
Theorem transport_error_propagates (base_url data_key : string) (export : bool)
  (filename location_name : value) (params params' : dict) (e : transport_error)
  (st : state World) :
  join_hourly params = Ok params' ->
  fst (requests_get base_url params' (net st)) = inl e ->
  get_weather_data_df World requests_get base_url data_key export filename
    location_name params st
  = (Raise (RequestError e),
     mkState (snd (requests_get base_url params' (net st)))
             (sent st ++ [(base_url, params')])%list (stdout st) (files st)).
Proof.
  intros J G. rewrite get_weather_data_df_run, J. cbv zeta. rewrite G. reflexivity.
Qed.

Lemma str_items_non_string (l : list value) (x : value) :
  In x l -> (forall s, x <> VStr s) -> str_items l = Raise TypeError.
Proof.
  induction l as [|y l IH]; intros H N; [destruct H|].
  destruct H as [->|H].
  - destruct x; try reflexivity. destruct (N s eq_refl).
  - simpl. destruct y; try reflexivity. now rewrite IH.
Qed.

(** X2. When the list under ["hourly"] has an item that is not a string, the
    call raises [TypeError] where it joins the list, before anything is
    sent: the state is unchanged. *)
Theorem hourly_item_not_a_string (base_url data_key : string) (export : bool)
  (filename location_name : value) (params : dict) (l : list value) (x : value)
  (st : state World) :
  dict_get "hourly" params = Some (VList l) ->
  In x l -> (forall s, x <> VStr s) ->
  get_weather_data_df World requests_get base_url data_key export filename
    location_name params st
  = (Raise TypeError, st).
Proof.
  intros H Hx N. rewrite get_weather_data_df_run.
  unfold join_hourly, py_join. rewrite H, (str_items_non_string l x Hx N). reflexivity.
Qed.

(** X3. A call that returns with export on and a non-empty file name has
    written exactly one file, under that name, holding the table it
    returns; a call with export off, or with no file name, writes none. *)
Theorem export_writes_returned_table (base_url data_key : string) (export : bool)
  (filename location_name : value) (params : dict) (st st' : state World)
  (df : DataFrame) :
  get_weather_data_df World requests_get base_url data_key export filename
    location_name params st = (Ok df, st') ->
  (export && truthy filename = true ->
   exists path, filename = VStr path /\ path <> EmptyString /\
                files st' = (files st ++ [(path, df)])%list) /\
  (export && truthy filename = false -> files st' = files st).
Proof.
  rewrite get_weather_data_df_run. intros H.
  destruct (join_hourly params) as [params'|e]; [|discriminate].
  cbv zeta in H.
  destruct (fst (requests_get base_url params' (net st))) as [e|data]; [discriminate|].
  destruct (_ <- check_data_key data data_key ;; _) as [df0|e]; [|discriminate].
  destruct (export && truthy filename) eqn:X.
  - split; [intros _|discriminate].
    unfold bind, to_csv, lift, ret in H. destruct filename; try discriminate H.
    injection H as <- <-. exists s. repeat split.
    apply andb_true_iff in X. destruct X as (_ & X). simpl in X.
    intros ->. discriminate X.
  - split; [discriminate|intros _]. injection H as <- <-. reflexivity.
Qed.

(** X4. The table does not depend on the export flag or the file name: a
    call that returns a table returns the same table, with the same
    request and the same lines printed, when run with export off. *)
Theorem table_independent_of_export (base_url data_key : string) (export : bool)
  (filename location_name : value) (params : dict) (st st' : state World)
  (df : DataFrame) :
  get_weather_data_df World requests_get base_url data_key export filename
    location_name params st = (Ok df, st') ->
  get_weather_data_df World requests_get base_url data_key false VNone
    location_name params st
  = (Ok df, mkState (net st') (sent st') (stdout st') (files st)).
Proof.
  rewrite !get_weather_data_df_run. intros H.
  destruct (join_hourly params) as [params'|e]; [|discriminate].
  cbv zeta in *.
  destruct (fst (requests_get base_url params' (net st))) as [e|data]; [discriminate|].
  destruct (_ <- check_data_key data data_key ;; _) as [df0|e]; [|discriminate].
  cbn [andb].
  destruct (export && truthy filename).
  - unfold bind, to_csv, lift, ret in H. destruct filename; try discriminate H.
    injection H as <- <-. reflexivity.
  - injection H as <- <-. reflexivity.
Qed.

Lemma returned_columns_nodup (base_url data_key : string) (export : bool)
  (filename location_name : value) (params : dict) (st st' : state World)
  (df : DataFrame) :
  get_weather_data_df World requests_get base_url data_key export filename
    location_name params st = (Ok df, st') ->
  NoDup (columns df).
Proof.
  intros H. apply get_weather_data_df_ok in H.
  destruct H as (params' & data & rows & _ & _ & _ & _ & A & _).
  eapply annotate_nodup, A.
Qed.

(** X5. The column labels of a table [get_weather_data_df] returns are
    pairwise distinct, so that a label names one column: the column a
    lookup by label finds is the column at the place of the label. *)
Theorem column_labels_distinct (base_url data_key : string) (export : bool)
  (filename location_name : value) (params : dict) (st st' : state World)
  (df : DataFrame) :
  get_weather_data_df World requests_get base_url data_key export filename
    location_name params st = (Ok df, st') ->
  NoDup (columns df) /\
  forall c s, In (c, s) (cols df) -> column c df = Some s.
Proof.
  intros H. apply returned_columns_nodup in H. split; [exact H|].
  intros c s Hin. now apply lookup_column_in.
Qed.

(** The cells of the time column and of the columns of the variables of a
    returned table: what the rows of the reshaping loop have under the
    label. *)
Lemma reshaped_column_cells (base_url data_key : string) (export : bool)
  (filename location_name : value) (params : dict) (st st' : state World)
  (df : DataFrame) :
  get_weather_data_df World requests_get base_url data_key export filename
    location_name params st = (Ok df, st') ->
  exists params' d wd n rows,
    join_hourly params = Ok params' /\
    fst (requests_get base_url params' (net st)) = inr (VDict d) /\
    dict_get data_key d = Some (VDict wd) /\
    py_len (timestamps_of wd) = Ok n /\
    List.length rows = n /\
    (forall i, i < n ->
       make_row (time_col_name (timezone_of d)) (timestamps_of wd) (VDict wd)
                (units_of d data_key) i = Ok (nth i rows [])) /\
    forall c,
      c = time_col_name (timezone_of d) \/ In c (var_labels wd (units_of d data_key)) ->
      column c df = Some (map (dict_get_default c NaN) rows).
Proof.
  intros H. pose proof (returned_columns_nodup _ _ _ _ _ _ _ _ _ H) as ND.
  apply table_shape in H.
  destruct H as (params' & d & wd & n & rows & J & G & Hwd & Hn & F & A & N & C).
  pose proof (Forall2_length_seq _ _ _ _ F) as L.
  exists params', d, wd, n, rows. repeat split; auto.
  - intros i Hi.
    apply (Forall2_seq_nth
             (fun i r => make_row (time_col_name (timezone_of d)) (timestamps_of wd)
                           (VDict wd) (units_of d data_key) i = Ok r) n rows [] F i Hi).
  - intros c Hc. unfold column. apply lookup_column_in; [exact ND|].
    rewrite C. apply in_or_app. right. apply in_or_app. right.
    apply in_map_iff. exists c. split; [reflexivity|].
    destruct Hc as [->|Hc]; [now left|].
    destruct (uniq_from_complete [time_col_name (timezone_of d)] _ _ Hc)
      as [[Ex|[]]|Hu]; [left; exact Ex | right; exact Hu].
Qed.

(** The cells of the time column, index by index, as the model has them
    (before any dtype conversion). *)
Lemma time_column_cells (base_url data_key : string) (export : bool)
  (filename location_name : value) (params : dict) (st st' : state World)
  (df : DataFrame) :
  get_weather_data_df World requests_get base_url data_key export filename
    location_name params st = (Ok df, st') ->
  exists params' d wd n,
    join_hourly params = Ok params' /\
    fst (requests_get base_url params' (net st)) = inr (VDict d) /\
    dict_get data_key d = Some (VDict wd) /\
    py_len (timestamps_of wd) = Ok n /\
    (~ In (time_col_name (timezone_of d)) (var_labels wd (units_of d data_key)) ->
     exists cells,
       column (time_col_name (timezone_of d)) df = Some cells /\
       List.length cells = n /\
       forall i, i < n -> py_getitem_int (timestamps_of wd) i = Ok (nth i cells NaN)).
Proof.
  intros H. apply reshaped_column_cells in H.
  destruct H as (params' & d & wd & n & rows & J & G & Hwd & Hn & L & Hrow & Hcol).
  exists params', d, wd, n. repeat split; auto.
  intros Hfree. eexists. split; [apply Hcol; now left|].
  split; [now rewrite length_map|].
  intros i Hi.
  rewrite nth_row_cell. specialize (Hrow i Hi).
  unfold make_row in Hrow. inv_bind Hrow. inv_bind Hrow.
  simpl in E0. injection E0 as <-.
  unfold dict_get_default.
  rewrite (fill_row_untouched _ _ _ _ _ _ _ Hrow).
  - simpl. rewrite String.eqb_refl. exact E.
  - intros key K N Hl. apply Hfree. rewrite <- Hl.
    unfold var_labels. apply in_map_iff. exists key. split; [reflexivity|].
    apply filter_In. split; [exact K|]. apply String.eqb_neq in N. now rewrite N.
Qed.

(** The cells of the column of a variable, index by index, as the model
    has them (before any dtype conversion). *)
Lemma variable_column_cells (base_url data_key : string) (export : bool)
  (filename location_name : value) (params : dict) (st st' : state World)
  (df : DataFrame) :
  get_weather_data_df World requests_get base_url data_key export filename
    location_name params st = (Ok df, st') ->
  exists params' d wd n,
    join_hourly params = Ok params' /\
    fst (requests_get base_url params' (net st)) = inr (VDict d) /\
    dict_get data_key d = Some (VDict wd) /\
    py_len (timestamps_of wd) = Ok n /\
    let units := units_of d data_key in
    forall key,
      In key (variables wd) ->
      label key (unit_of units key) <> time_col_name (timezone_of d) ->
      (forall key', In key' (variables wd) ->
         label key' (unit_of units key') = label key (unit_of units key) -> key' = key) ->
      exists series cells,
        dict_get key wd = Some series /\
        column (label key (unit_of units key)) df = Some cells /\
        List.length cells = n /\
        forall i, i < n -> py_getitem_int series i = Ok (nth i cells NaN).
Proof.
  intros H. apply reshaped_column_cells in H.
  destruct H as (params' & d & wd & n & rows & J & G & Hwd & Hn & L & Hrow & Hcol).
  exists params', d, wd, n. repeat split; auto.
  intros units key K Ntime U. subst units.
  set (units := units_of d data_key) in *.
  assert (Kin : In key (dict_keys wd) /\ key <> "time").
  { apply filter_In in K. destruct K as (K & T). split; [exact K|].
    intros ->. discriminate T. }
  destruct Kin as (Kin & Nt).
  assert (S : exists series, dict_get key wd = Some series).
  { apply dict_get_in_keys in Kin. destruct (dict_get key wd); [eauto|congruence]. }
  destruct S as (series & S).
  exists series, (map (dict_get_default (label key (unit_of units key)) NaN) rows).
  split; [exact S|]. split.
  { apply Hcol. right. unfold var_labels. apply in_map_iff. eauto. }
  split; [now rewrite length_map|].
  intros i Hi.
  rewrite nth_row_cell. specialize (Hrow i Hi).
  unfold make_row in Hrow. inv_bind Hrow. inv_bind Hrow.
  simpl in E0. injection E0 as <-.
  destruct (fill_row_variable wd units i _ _ _ key Hrow Kin Nt)
    as (series' & x1 & S' & Hx & Hget).
  { intros key' K' N' Hl. apply U; [|exact Hl].
    apply filter_In. split; [exact K'|]. apply String.eqb_neq in N'. now rewrite N'. }
  rewrite S in S'. injection S' as <-.
  rewrite Hx. f_equal. symmetry. apply dict_get_default_some, Hget.
Qed.

Lemma cells_are_firstn (cells l : list value) (n : nat) :
  List.length cells = n ->
  (forall i, i < n -> nth_error l i = Some (nth i cells NaN)) ->
  cells = firstn n l.
Proof.
  revert l n. induction cells as [|c cells IH]; intros l n L H; simpl in L; subst n.
  - reflexivity.
  - destruct l as [|x l].
    + specialize (H 0 ltac:(lia)). discriminate H.
    + pose proof (H 0 ltac:(lia)) as H0. simpl in H0. injection H0 as ->.
      simpl. f_equal. apply IH; [reflexivity|].
      intros i Hi. apply (H (S i)). lia.
Qed.

Lemma getitem_list (l : list value) (i : nat) (x : value) :
  py_getitem_int (VList l) i = Ok x -> nth_error l i = Some x.
Proof.
  simpl. destruct (nth_error l i); [now intros [= ->] | discriminate].
Qed.

(** X6. In a returned table, when the time entry of the response is an
    array whose timestamps are all of one kind (all strings, or all numbers
    of one type, so that pandas keeps them as they are) and no variable has
    the label of the time column, the time column is that array: its cell
    [i] is [timestamps[i]]. *)
Theorem time_column_holds_timestamps (base_url data_key : string) (export : bool)
  (filename location_name : value) (params params' : dict) (d wd : dict)
  (timestamps : list value) (st st' : state World) (df : DataFrame) :
  join_hourly params = Ok params' ->
  fst (requests_get base_url params' (net st)) = inr (VDict d) ->
  dict_get data_key d = Some (VDict wd) ->
  dict_get "time" wd = Some (VList timestamps) ->
  uniform timestamps = true ->
  ~ In (time_col_name (timezone_of d)) (var_labels wd (units_of d data_key)) ->
  get_weather_data_df World requests_get base_url data_key export filename
    location_name params st = (Ok df, st') ->
  column (time_col_name (timezone_of d)) df = Some timestamps.
Proof.
  intros J0 G0 W0 T _ Hfree H. apply time_column_cells in H.
  destruct H as (params1 & d1 & wd1 & n & J & G & Hwd & Hn & Hcells).
  rewrite J0 in J. injection J as <-.
  rewrite G0 in G. injection G as <-.
  rewrite W0 in Hwd. injection Hwd as <-.
  destruct (Hcells Hfree) as (cells & C & L & Hi).
  assert (E : timestamps_of wd = VList timestamps)
    by (unfold timestamps_of, dict_get_default; now rewrite T).
  rewrite E in Hn, Hi. simpl in Hn. injection Hn as <-.
  rewrite C. f_equal.
  rewrite (cells_are_firstn cells timestamps _ L).
  - apply firstn_all.
  - intros i Hlt. apply getitem_list, Hi, Hlt.
Qed.

(** X7. In a returned table, when the series of a variable is an array
    whose first [n] values ([n] the number of timestamps) are all of one
    kind (all floats, all ints, all strings or all booleans, so that pandas
    keeps them as they are), and the label of the variable is shared by no
    other variable and is not the label of the time column, the column of
    the variable is these [n] values in order: its cell [i] is
    [series[i]]. *)
Theorem variable_column_holds_series (base_url data_key : string) (export : bool)
  (filename location_name : value) (params params' : dict) (d wd : dict)
  (key : string) (series : list value) (n : nat) (st st' : state World)
  (df : DataFrame) :
  join_hourly params = Ok params' ->
  fst (requests_get base_url params' (net st)) = inr (VDict d) ->
  dict_get data_key d = Some (VDict wd) ->
  seq_len (timestamps_of wd) = Some n ->
  In key (variables wd) ->
  dict_get key wd = Some (VList series) ->
  uniform (firstn n series) = true ->
  label key (unit_of (units_of d data_key) key) <> time_col_name (timezone_of d) ->
  (forall key', In key' (variables wd) ->
     label key' (unit_of (units_of d data_key) key')
     = label key (unit_of (units_of d data_key) key) -> key' = key) ->
  get_weather_data_df World requests_get base_url data_key export filename
    location_name params st = (Ok df, st') ->
  column (label key (unit_of (units_of d data_key) key)) df = Some (firstn n series).
Proof.
  intros J0 G0 W0 S K Hs _ Ntime U H. apply variable_column_cells in H.
  destruct H as (params1 & d1 & wd1 & n1 & J & G & Hwd & Hn & Hcells).
  rewrite J0 in J. injection J as <-.
  rewrite G0 in G. injection G as <-.
  rewrite W0 in Hwd. injection Hwd as <-.
  assert (En : n1 = n).
  { destruct (timestamps_of wd); simpl in *; try discriminate; congruence. }
  subst n1. cbv zeta in Hcells.
  destruct (Hcells key K Ntime U) as (series' & cells & Hs' & C & L & Hi).
  rewrite Hs in Hs'. injection Hs' as <-.
  rewrite C. f_equal. apply cells_are_firstn; [exact L|].
  intros i Hlt. apply getitem_list, Hi, Hlt.
Qed.

(** X8. A response with a variable whose label is ["latitude"],
    ["longitude"] or ["elevation"] gets no table: the series are reshaped,
    and the call raises [ValueError] where it inserts the metadata column
    of that name, since the frame already has the label. *)
Theorem metadata_label_taken_raises_ValueError (base_url data_key : string)
  (export : bool) (filename location_name : value) (params params' : dict)
  (d wd u : dict) (n : nat) (l : string) (st : state World) :
  join_hourly params = Ok params' ->
  fst (requests_get base_url params' (net st)) = inr (VDict d) ->
  dict_get data_key d = Some (VDict wd) ->
  units_of d data_key = VDict u ->
  seq_len (timestamps_of wd) = Some n -> 0 < n ->
  aligned wd n ->
  is_scalar (metadata "latitude" d params) = true ->
  is_scalar (metadata "longitude" d params) = true ->
  In l (var_labels wd (VDict u)) ->
  In l ["latitude"; "longitude"; "elevation"] ->
  get_weather_data_df World requests_get base_url data_key export filename
    location_name params st
  = (Raise ValueError, after_request World requests_get base_url params' st).
Proof.
  intros J G Hwd Hu Hn Hpos Hall Slat Slon Hl Hres.
  destruct (aligned_reshape data_key d wd u n Hwd Hu Hn Hall) as (rows & R & F).
  pose proof (reshaped_columns _ _ _ _ _ _ F ltac:(lia)) as K.
  rewrite <- (metadata_join_hourly _ _ "latitude" d J) in Slat by discriminate.
  rewrite <- (metadata_join_hourly _ _ "longitude" d J) in Slon by discriminate.
  assert (A : annotate (VDict d) params' location_name rows = Raise ValueError).
  { apply annotate_reserved; [|assumption|assumption].
    exists l. split; [assumption|]. unfold has_column. rewrite K.
    apply existsb_eqb_In.
    destruct (uniq_from_complete [time_col_name (timezone_of d)] _ _ Hl)
      as [[Ex|[]]|Hu']; [left; exact Ex | right; exact Hu']. }
  rewrite get_weather_data_df_run, J. cbv zeta. rewrite G.
  unfold check_data_key. simpl. unfold dict_mem. rewrite Hwd. simpl.
  rewrite R. simpl. rewrite A. reflexivity.
Qed.

(** *** The driver *)

(** Whatever its result, a call prints nothing, writes no file when export
    is off, and sends at most one request. *)
Lemma get_weather_data_df_effects (base_url data_key : string) (export : bool)
  (filename location_name : value) (params : dict) (st : state World) :
  let st' := snd (get_weather_data_df World requests_get base_url data_key export
                    filename location_name params st) in
  stdout st' = stdout st /\
  (export = false -> files st' = files st) /\
  (sent st' = sent st \/ exists params', sent st' = (sent st ++ [(base_url, params')])%list).
Proof.
  rewrite get_weather_data_df_run.
  destruct (join_hourly params) as [params'|e]; [|simpl; auto].
  cbv zeta.
  destruct (fst (requests_get base_url params' (net st))) as [e|data];
    [simpl; eauto|].
  destruct (_ <- check_data_key data data_key ;; _) as [df|e]; [|simpl; eauto].
  destruct export; cbn [andb].
  - unfold bind, to_csv, lift, ret.
    destruct (truthy filename); [|simpl; split; [|split]; eauto; discriminate].
    destruct filename; simpl; split; try split; eauto; discriminate.
  - simpl. eauto.
Qed.

Lemma locations_loop_through (base_url data_key : string) (params : dict)
  (before rest : list (string * (value * value))) (acc dfs : list DataFrame)
  (st st1 : state World) :
  clashes params = false ->
  tables_for World requests_get base_url data_key params st before dfs st1 ->
  locations_loop World requests_get base_url data_key params (before ++ rest) acc st
  = locations_loop World requests_get base_url data_key params rest (acc ++ dfs) st1.
Proof.
  intros C T. revert acc.
  induction T as [st|st name lat lon items df st1 dfs st2 Hcall T IH]; intros acc.
  - now rewrite app_nil_r.
  - cbn [app locations_loop]. unfold bind at 1. unfold print at 1.
    unfold bind at 1. unfold call_get_weather_data_df. rewrite C, Hcall.
    rewrite IH, <- app_assoc. reflexivity.
Qed.

(** X9. The driver stops at the first location whose call fails: it raises
    the error of that call, returns none of the tables it has so far, and
    the state is the one that call left - the locations after it are
    neither announced nor requested. *)
Theorem first_failure_aborts_batch (base_url data_key : string) (export : bool)
  (params : dict) (before after : list (string * (value * value)))
  (name : string) (lat lon : value) (dfs : list DataFrame) (e : exn)
  (st st1 st2 : state World) :
  clashes params = false ->
  tables_for World requests_get base_url data_key params st before dfs st1 ->
  get_weather_data_df World requests_get base_url data_key false
    (dict_get_default "filename" VNone params) (VStr name)
    (("latitude", lat) :: ("longitude", lon) :: without "filename" params)
    (mkState (net st1) (sent st1) (stdout st1 ++ [progress_line name lat lon])%list
             (files st1))
  = (Raise e, st2) ->
  get_weather_data_multiple_locations World requests_get base_url
    (before ++ (name, (lat, lon)) :: after) data_key export params st
  = (Raise e, st2).
Proof.
  intros C T Hcall. unfold get_weather_data_multiple_locations.
  rewrite (locations_loop_through _ _ _ _ _ _ _ _ _ C T).
  cbn [locations_loop]. unfold bind at 1. unfold print at 1.
  unfold bind at 1. unfold call_get_weather_data_df. now rewrite C, Hcall.
Qed.

(** X10. When the shared parameters have a key ["latitude"], ["longitude"]
    or ["location_name"], the driver raises [TypeError] at its first call
    (the call gives these keywords itself): the first location is
    announced, nothing is sent. *)
Theorem shared_coordinates_raise_TypeError (base_url data_key : string) (export : bool)
  (params : dict) (name : string) (lat lon : value)
  (rest : list (string * (value * value))) (k : string) (st : state World) :
  In k ["latitude"; "longitude"; "location_name"] ->
  dict_mem k params = true ->
  get_weather_data_multiple_locations World requests_get base_url
    ((name, (lat, lon)) :: rest) data_key export params st
  = (Raise TypeError,
     mkState (net st) (sent st) (stdout st ++ [progress_line name lat lon])%list
             (files st)).
Proof.
  intros Hk Hmem.
  assert (C : clashes params = true).
  { unfold clashes. apply existsb_exists. exists k. split.
    - apply dict_get_in_keys. unfold dict_mem in Hmem.
      destruct (dict_get k params); [discriminate | discriminate Hmem].
    - apply existsb_eqb_In. unfold call_names.
      destruct Hk as [<-|[<-|[<-|[]]]]; simpl; auto 10. }
  unfold get_weather_data_multiple_locations. cbn [locations_loop].
  unfold bind at 1. unfold print at 1. unfold bind at 1.
  unfold call_get_weather_data_df. now rewrite C.
Qed.

Lemma driver_tables (base_url data_key : string) (export : bool)
  (params : dict) (locations : list (string * (value * value)))
  (dfs : list DataFrame) (st st' : state World) :
  get_weather_data_multiple_locations World requests_get base_url locations data_key
    export params st = (Ok dfs, st') ->
  tables_for World requests_get base_url data_key params st locations dfs st' /\
  files st' = files st.
Proof.
  unfold get_weather_data_multiple_locations. intros H.
  apply locations_loop_ok in H. destruct H as (new & -> & T & F). auto.
Qed.

Lemma tables_for_effects (base_url data_key : string) (params : dict)
  (st st' : state World) (items : list (string * (value * value)))
  (dfs : list DataFrame) :
  tables_for World requests_get base_url data_key params st items dfs st' ->
  stdout st'
  = (stdout st ++ map (fun loc => progress_line (fst loc) (fst (snd loc)) (snd (snd loc)))
                      items)%list /\
  exists reqs,
    sent st' = (sent st ++ reqs)%list /\
    Forall2 (fun loc req =>
               fst req = base_url /\
               dict_get "latitude" (snd req) = Some (fst (snd loc)) /\
               dict_get "longitude" (snd req) = Some (snd (snd loc)))
            items reqs.
Proof.
  induction 1 as [st|st name lat lon items df st1 dfs st2 Hcall T IH].
  - split; [now rewrite app_nil_r|]. exists []. split; [now rewrite app_nil_r|constructor].
  - destruct IH as (Hout & reqs & Hsent & F).
    apply get_weather_data_df_ok in Hcall.
    destruct Hcall as (params' & _ & _ & J & _ & _ & _ & _ & S1 & O1 & _).
    cbn [sent stdout] in S1, O1. split.
    + rewrite Hout, O1, <- app_assoc. reflexivity.
    + exists ((base_url, params') :: reqs). split.
      * rewrite Hsent, S1, <- app_assoc. reflexivity.
      * constructor; [|exact F]. cbn [fst snd]. split; [reflexivity|].
        rewrite !(join_hourly_get_other _ _ _ J) by discriminate. split; reflexivity.
Qed.

(** X11. A run of the driver that returns has announced every location, in
    order, and sent one request for each, in order, to the base URL, with
    the latitude and longitude of the location as query parameters. *)
Theorem one_request_per_location (base_url data_key : string) (export : bool)
  (params : dict) (locations : list (string * (value * value)))
  (dfs : list DataFrame) (st st' : state World) :
  get_weather_data_multiple_locations World requests_get base_url locations data_key
    export params st = (Ok dfs, st') ->
  stdout st'
  = (stdout st ++ map (fun loc => progress_line (fst loc) (fst (snd loc)) (snd (snd loc)))
                      locations)%list /\
  exists reqs,
    sent st' = (sent st ++ reqs)%list /\
    Forall2 (fun loc req =>
               fst req = base_url /\
               dict_get "latitude" (snd req) = Some (fst (snd loc)) /\
               dict_get "longitude" (snd req) = Some (snd (snd loc)))
            locations reqs.
Proof.
  intros H. apply driver_tables in H. destruct H as (T & _).
  eapply tables_for_effects, T.
Qed.

(** X12. Every table the driver returns for a location with a non-empty
    name starts with the ["location"] column, and every cell of that column
    is the name of the location. *)
Theorem tables_carry_location_name (base_url data_key : string) (export : bool)
  (params : dict) (locations : list (string * (value * value)))
  (dfs : list DataFrame) (st st' : state World) :
  get_weather_data_multiple_locations World requests_get base_url locations data_key
    export params st = (Ok dfs, st') ->
  Forall2 (fun loc df =>
             fst loc <> EmptyString ->
             exists rest,
               cols df = ("location", repeat (VStr (fst loc)) (nrows df)) :: rest)
          locations dfs.
Proof.
  intros H. apply driver_tables in H. destruct H as (T & _).
  induction T as [st|st name lat lon items df st1 dfs st2 Hcall T IH]; constructor;
    [|exact IH].
  cbn [fst]. intros N. apply table_shape in Hcall.
  destruct Hcall as (params' & d & wd & n & rows & _ & _ & _ & _ & _ & _ & Hn & C).
  rewrite C, Hn. cbn [truthy]. apply String.eqb_neq in N. rewrite N. cbn [negb app].
  eauto.
Qed.

(** *** The main block *)

Lemma locations_loop_raise_effects (base_url data_key : string) (params : dict)
  (items : list (string * (value * value))) (acc : list DataFrame) (e : exn)
  (st st' : state World) :
  locations_loop World requests_get base_url data_key params items acc st
  = (Raise e, st') ->
  files st' = files st /\
  exists k, k <= List.length items /\
    stdout st'
    = (stdout st
       ++ firstn k (map (fun loc => progress_line (fst loc) (fst (snd loc)) (snd (snd loc)))
                        items))%list.
Proof.
  revert acc st. induction items as [|[name [lat lon]] items IH]; intros acc st H.
  - discriminate H.
  - cbn [locations_loop] in H. unfold bind at 1 in H. unfold print at 1 in H.
    unfold bind at 1 in H. unfold call_get_weather_data_df in H.
    destruct (clashes params).
    + injection H as <- <-. split; [reflexivity|]. exists 1. split; [simpl; lia|].
      reflexivity.
    + match type of H with
      | context [get_weather_data_df ?W ?r ?b ?k ?x ?f ?l ?p ?s] =>
          pose proof (get_weather_data_df_effects b k x f l p s) as Eff;
          destruct (get_weather_data_df W r b k x f l p s) as [[df|err] st1] eqn:C
      end; cbv zeta in Eff; cbn [snd stdout files] in Eff;
        destruct Eff as (O1 & F1 & _); specialize (F1 eq_refl).
      * apply IH in H. destruct H as (F & k & Hk & O).
        split; [congruence|]. exists (S k). split; [simpl; lia|].
        rewrite O, O1, <- app_assoc. reflexivity.
      * injection H as <- <-. split; [assumption|]. exists 1. split; [simpl; lia|].
        rewrite O1. reflexivity.
Qed.

(** X13. When the main block ends normally, the configuration was a mapping
    with a string under ["base_url"]; the three locations were announced
    and requested in the order Nashik, Pune, Mumbai; the one file written
    is ["abc1.csv"], holding the concatenation of the three tables, which
    has as many rows as the three tables together; and the two closing
    lines were printed after it. *)
Theorem main_saves_all_locations (default_config : value) (st st' : state World) :
  main World requests_get default_config st = (Ok tt, st') ->
  exists config url dfs combined_df st1,
    default_config = VDict config /\
    dict_get "base_url" config = Some (VStr url) /\
    get_weather_data_multiple_locations World requests_get url main_locations "hourly"
      false (without "base_url" config) st = (Ok dfs, st1) /\
    List.length dfs = 3 /\
    concat dfs = Ok combined_df /\
    nrows combined_df = list_sum (map nrows dfs) /\
    files st' = (files st ++ [("abc1.csv", combined_df)])%list /\
    stdout st'
    = (stdout st
       ++ ["Fetching data for Nashik: (20.5943, 74.3715)";
           "Fetching data for Pune: (18.5204, 73.8567)";
           "Fetching data for Mumbai: (19.076, 72.8777)";
           "Saved complete data to abc1.csv";
           "Data fetched and saved successfully."])%list /\
    sent st' = sent st1 /\ net st' = net st1.
Proof.
  unfold main. intros H.
  unfold bind at 1 in H. unfold lift at 1 in H.
  destruct (py_pop default_config "base_url") as [[base_url config']|e] eqn:P;
    [|discriminate H].
  cbn [fst snd] in H.
  unfold bind at 1 in H.
  destruct (call_driver World requests_get base_url config' st) as [[dfs|e] st1] eqn:D;
    [|discriminate H].
  unfold bind at 1 in H. unfold lift at 1 in H.
  destruct (concat dfs) as [combined|e] eqn:C; [|discriminate H].
  unfold bind, to_csv, print in H. injection H as <-.
  destruct default_config; try discriminate P. simpl in P.
  destruct (dict_get "base_url" d) as [b|] eqn:B; [|discriminate P].
  injection P as <- <-.
  unfold call_driver in D.
  destruct (existsb _ _); [discriminate D|].
  destruct b; try discriminate D.
  pose proof D as D'. apply driver_tables in D'. destruct D' as (T & F).
  pose proof (tables_for_length _ _ _ _ _ _ _ _ _ T) as L.
  pose proof (tables_for_effects _ _ _ _ _ _ _ T) as (O & _).
  exists d, s, dfs, combined, st1. cbn [files stdout sent net].
  repeat split; auto.
  - destruct dfs; [discriminate C|]. injection C as <-. reflexivity.
  - now rewrite F.
  - rewrite O, <- !app_assoc. reflexivity.
Qed.

(** X14. When the main block fails - no ["base_url"] in the configuration,
    a failing request, a response that cannot be reshaped - it has written
    no file; what it has printed are the announcements of the locations it
    got to, and neither of the closing lines. *)
Theorem main_failure_writes_nothing (default_config : value) (e : exn)
  (st st' : state World) :
  main World requests_get default_config st = (Raise e, st') ->
  files st' = files st /\
  exists k, k <= 3 /\
    stdout st'
    = (stdout st
       ++ firstn k ["Fetching data for Nashik: (20.5943, 74.3715)";
                    "Fetching data for Pune: (18.5204, 73.8567)";
                    "Fetching data for Mumbai: (19.076, 72.8777)"])%list.
Proof.
  unfold main. intros H.
  unfold bind at 1 in H. unfold lift at 1 in H.
  destruct (py_pop default_config "base_url") as [[base_url config']|e0] eqn:P.
  2:{ injection H as <- <-. split; [reflexivity|]. exists 0. split; [lia|].
      now rewrite app_nil_r. }
  cbn [fst snd] in H. unfold bind at 1 in H.
  destruct (call_driver World requests_get base_url config' st) as [[dfs|e0] st1] eqn:D.
  - unfold bind at 1 in H. unfold lift at 1 in H.
    destruct (concat dfs) as [combined|e1] eqn:C.
    + unfold bind, to_csv, print in H. discriminate H.
    + injection H as <- <-.
      unfold call_driver in D. destruct (existsb _ _); [discriminate D|].
      destruct base_url; try discriminate D.
      apply driver_tables in D. destruct D as (T & _).
      apply tables_for_length in T.
      destruct dfs; [discriminate T | discriminate C].
  - injection H as <- <-.
    unfold call_driver in D. destruct (existsb _ _).
    { injection D as <- <-. split; [reflexivity|]. exists 0. split; [lia|].
      now rewrite app_nil_r. }
    destruct base_url;
      try (injection D as <- <-; split; [reflexivity|]; exists 0; split; [lia|];
           now rewrite app_nil_r).
    unfold get_weather_data_multiple_locations in D.
    apply locations_loop_raise_effects in D. exact D.
Qed.

(** X15. A main block whose configuration is a mapping without
    ["base_url"] raises [KeyError] for that key before it announces,
    requests or writes anything. *)
Theorem main_without_base_url (config : dict) (st : state World) :
  dict_get "base_url" config = None ->
  main World requests_get (VDict config) st = (Raise (KeyError "'base_url'"), st).
Proof.
  intros H. unfold main, bind, lift. simpl. now rewrite H.
Qed.





(** X18. When what the response has under the data key is not a mapping
    (a list, a string, a number, [null]), the call raises [AttributeError]
    where it asks for the ["time"] entry, after the request. *)
Theorem series_not_a_mapping_raises_AttributeError (base_url data_key : string)
  (export : bool) (filename location_name : value) (params params' : dict)
  (d : dict) (weather_data : value) (st : state World) :
  join_hourly params = Ok params' ->
  fst (requests_get base_url params' (net st)) = inr (VDict d) ->
  dict_get data_key d = Some weather_data ->
  (forall wd, weather_data <> VDict wd) ->
  get_weather_data_df World requests_get base_url data_key export filename
    location_name params st
  = (Raise AttributeError, after_request World requests_get base_url params' st).
Proof.
  intros J G Hwd N.
  rewrite get_weather_data_df_run, J. cbv zeta. rewrite G.
  unfold check_data_key. simpl. unfold dict_mem. rewrite Hwd. simpl.
  unfold reshape. simpl. rewrite Hwd. simpl.
  destruct weather_data; try reflexivity. destruct (N d0 eq_refl).
Qed.

(** X19. The label of the time column of a returned table: ["time (UTC)"]
    when the response has no ["timezone"], ["time (<timezone>)"] when it has
    a non-empty string there, and ["time"] when it has [null] or an empty
    string there. *)
Theorem time_column_label (base_url data_key : string) (export : bool)
  (filename location_name : value) (params : dict) (st st' : state World)
  (df : DataFrame) :
  get_weather_data_df World requests_get base_url data_key export filename
    location_name params st = (Ok df, st') ->
  exists params' d,
    join_hourly params = Ok params' /\
    fst (requests_get base_url params' (net st)) = inr (VDict d) /\
    (dict_get "timezone" d = None -> In "time (UTC)" (columns df)) /\
    (forall tz, dict_get "timezone" d = Some (VStr tz) -> tz <> EmptyString ->
                In ("time (" ++ tz ++ ")") (columns df)) /\
    (dict_get "timezone" d = Some VNone \/
     dict_get "timezone" d = Some (VStr EmptyString) ->
     In "time" (columns df)).
Proof.
  intros H. apply table_shape in H.
  destruct H as (params' & d & wd & n & rows & J & G & _ & _ & _ & _ & _ & C).
  exists params', d. split; [exact J|]. split; [exact G|].
  assert (I : In (time_col_name (timezone_of d)) (columns df)).
  { unfold columns. rewrite C, !map_app. apply in_or_app. right.
    apply in_or_app. right. cbn [map fst]. now left. }
  unfold timezone_of, dict_get_default in I.
  split; [|split].
  - intros T. now rewrite T in I.
  - intros tz T N. rewrite T in I. unfold time_col_name in I. cbn [truthy py_str] in I.
    apply String.eqb_neq in N. now rewrite N in I.
  - intros [T|T]; now rewrite T in I.
Qed.

End MoreRuns.

(** ** More properties on the scenarios *)

Lemma transport_error_propagates_witness :
  (join_hourly nashik_params = Ok nashik_sent /\
   fst (scripted forecast_url nashik_sent (net (start [inl (HTTPError 500)])))
   = inl (HTTPError 500)) /\
  get_weather_data_df script scripted forecast_url "hourly" true (VStr "out.csv")
    (VStr "Nashik") nashik_params (start [inl (HTTPError 500)])
  = (Raise (RequestError (HTTPError 500)),
     mkState [] [(forecast_url, nashik_sent)] [] []).
Proof.
  assert (J : join_hourly nashik_params = Ok nashik_sent) by reflexivity.
  assert (G : fst (scripted forecast_url nashik_sent (net (start [inl (HTTPError 500)])))
              = inl (HTTPError 500)) by reflexivity.
  split; [auto|].
  exact (transport_error_propagates script scripted forecast_url "hourly" true
           (VStr "out.csv") (VStr "Nashik") nashik_params nashik_sent (HTTPError 500)
           (start [inl (HTTPError 500)]) J G).
Defined.

Lemma hourly_item_not_a_string_witness :
  (dict_get "hourly" mixed_params = Some (VList [VStr "temperature_2m"; VInt 2]) /\
   In (VInt 2) [VStr "temperature_2m"; VInt 2] /\
   (forall s, VInt 2 <> VStr s)) /\
  get_weather_data_df script scripted forecast_url "hourly" false VNone VNone
    mixed_params (start [inr nashik_response])
  = (Raise TypeError, start [inr nashik_response]).
Proof.
  assert (H : dict_get "hourly" mixed_params
              = Some (VList [VStr "temperature_2m"; VInt 2])) by reflexivity.
  assert (I : In (VInt 2) [VStr "temperature_2m"; VInt 2]) by (right; left; reflexivity).
  assert (N : forall s, VInt 2 <> VStr s) by discriminate.
  split; [auto|].
  exact (hourly_item_not_a_string script scripted forecast_url "hourly" false VNone
           VNone mixed_params _ _ (start [inr nashik_response]) H I N).
Defined.

Lemma export_writes_returned_table_witness :
  get_weather_data_df script scripted forecast_url "hourly" true (VStr "out.csv")
    (VStr "Nashik") nashik_params (start [inr nashik_response])
  = (Ok nashik_table, nashik_exported) /\
  (true && truthy (VStr "out.csv") = true ->
   exists path, VStr "out.csv" = VStr path /\ path <> EmptyString /\
                files nashik_exported
                = (files (start [inr nashik_response]) ++ [(path, nashik_table)])%list) /\
  (true && truthy (VStr "out.csv") = false ->
   files nashik_exported = files (start [inr nashik_response])).
Proof.
  assert (H : get_weather_data_df script scripted forecast_url "hourly" true
                (VStr "out.csv") (VStr "Nashik") nashik_params
                (start [inr nashik_response])
              = (Ok nashik_table, nashik_exported)) by reflexivity.
  split; [exact H|].
  exact (export_writes_returned_table script scripted _ _ _ _ _ _ _ _ _ H).
Defined.

Lemma table_independent_of_export_witness :
  get_weather_data_df script scripted forecast_url "hourly" true (VStr "out.csv")
    (VStr "Nashik") nashik_params (start [inr nashik_response])
  = (Ok nashik_table, nashik_exported) /\
  get_weather_data_df script scripted forecast_url "hourly" false VNone
    (VStr "Nashik") nashik_params (start [inr nashik_response])
  = (Ok nashik_table, nashik_after).
Proof.
  assert (H : get_weather_data_df script scripted forecast_url "hourly" true
                (VStr "out.csv") (VStr "Nashik") nashik_params
                (start [inr nashik_response])
              = (Ok nashik_table, nashik_exported)) by reflexivity.
  split; [exact H|].
  exact (table_independent_of_export script scripted _ _ _ _ _ _ _ _ _ H).
Defined.

Lemma column_labels_distinct_witness :
  get_weather_data_df script scripted forecast_url "hourly" false VNone (VStr "Nashik")
    nashik_params (start [inr nashik_response]) = (Ok nashik_table, nashik_after) /\
  NoDup (columns nashik_table) /\
  forall c s, In (c, s) (cols nashik_table) -> column c nashik_table = Some s.
Proof.
  assert (H : get_weather_data_df script scripted forecast_url "hourly" false VNone
                (VStr "Nashik") nashik_params (start [inr nashik_response])
              = (Ok nashik_table, nashik_after)) by reflexivity.
  split; [exact H|].
  exact (column_labels_distinct script scripted _ _ _ _ _ _ _ _ _ H).
Defined.

Lemma time_column_holds_timestamps_witness :
  (join_hourly pune_params = Ok pune_sent /\
   fst (scripted forecast_url pune_sent (net (start [inr pune_response])))
   = inr pune_response /\
   uniform [VStr "2024-01-01T00:00"; VStr "2024-01-01T01:00"; VStr "2024-01-01T02:00"]
   = true /\
   get_weather_data_df script scripted forecast_url "hourly" false VNone (VStr "Pune")
     pune_params (start [inr pune_response]) = (Ok pune_table, pune_after)) /\
  column "time (Asia/Kolkata)" pune_table
  = Some [VStr "2024-01-01T00:00"; VStr "2024-01-01T01:00"; VStr "2024-01-01T02:00"].
Proof.
  assert (J : join_hourly pune_params = Ok pune_sent) by reflexivity.
  assert (G : fst (scripted forecast_url pune_sent (net (start [inr pune_response])))
              = inr pune_response) by reflexivity.
  assert (H : get_weather_data_df script scripted forecast_url "hourly" false VNone
                (VStr "Pune") pune_params (start [inr pune_response])
              = (Ok pune_table, pune_after)) by reflexivity.
  split; [repeat split; auto|].
  refine (time_column_holds_timestamps script scripted forecast_url "hourly" false
            VNone (VStr "Pune") pune_params pune_sent _ _ _ _ _ _ J G eq_refl eq_refl
            eq_refl _ H).
  simpl. intros [E|[E|[]]]; discriminate E.
Defined.

Lemma variable_column_holds_series_witness :
  (join_hourly pune_params = Ok pune_sent /\
   fst (scripted forecast_url pune_sent (net (start [inr pune_response])))
   = inr pune_response /\
   uniform (firstn 3 [VFloat "17.4"; VFloat "16.9"; VFloat "16.1"]) = true /\
   get_weather_data_df script scripted forecast_url "hourly" false VNone (VStr "Pune")
     pune_params (start [inr pune_response]) = (Ok pune_table, pune_after)) /\
  column ("temperature_2m (" ++ degC ++ ")") pune_table
  = Some [VFloat "17.4"; VFloat "16.9"; VFloat "16.1"].
Proof.
  assert (J : join_hourly pune_params = Ok pune_sent) by reflexivity.
  assert (G : fst (scripted forecast_url pune_sent (net (start [inr pune_response])))
              = inr pune_response) by reflexivity.
  assert (H : get_weather_data_df script scripted forecast_url "hourly" false VNone
                (VStr "Pune") pune_params (start [inr pune_response])
              = (Ok pune_table, pune_after)) by reflexivity.
  split; [repeat split; auto|].
  refine (variable_column_holds_series script scripted forecast_url "hourly" false
            VNone (VStr "Pune") pune_params pune_sent _ _ "temperature_2m"
            [VFloat "17.4"; VFloat "16.9"; VFloat "16.1"] 3 _ _ _
            J G eq_refl eq_refl _ eq_refl eq_refl _ _ H).
  - left. reflexivity.
  - discriminate.
  - intros key' [<-|[<-|[]]] E; [reflexivity | discriminate E].
Defined.

Lemma metadata_label_taken_raises_ValueError_witness :
  get_weather_data_df script scripted forecast_url "hourly" false VNone VNone []
    (start [inr clash_response])
  = (Raise ValueError, mkState [] [(forecast_url, [])] [] []).
Proof.
  refine (metadata_label_taken_raises_ValueError script scripted forecast_url "hourly"
            false VNone VNone [] []
            [("hourly", VDict [("time", VList [VStr "2024-01-01T00:00"]);
                               ("latitude", VList [VFloat "20.59"])])]
            [("time", VList [VStr "2024-01-01T00:00"]);
             ("latitude", VList [VFloat "20.59"])]
            [] 1 "latitude" (start [inr clash_response]) _ _ _ _ _ _ _ _ _ _ _);
    try reflexivity.
  - lia.
  - intros key [<-|[]]. exists 1. split; [reflexivity | lia].
  - left. reflexivity.
  - left. reflexivity.
Defined.

Lemma first_failure_aborts_batch_witness :
  get_weather_data_multiple_locations script scripted forecast_url two_locations
    "hourly" true shared_hourly (start second_fails)
  = (Raise (RequestError (HTTPError 503)), after_second).
Proof.
  refine (first_failure_aborts_batch script scripted forecast_url "hourly" true
            shared_hourly [("A", (VInt 1, VInt 2))] [] "B" (VInt 3) (VInt 4)
            [table_of "A"] (RequestError (HTTPError 503))
            (start second_fails) after_first after_second _ _ _);
    try reflexivity.
  eapply tables_cons; [reflexivity | apply tables_nil].
Defined.

Lemma shared_coordinates_raise_TypeError_witness :
  (In "latitude" ["latitude"; "longitude"; "location_name"] /\
   dict_mem "latitude" [("latitude", VInt 0)] = true) /\
  get_weather_data_multiple_locations script scripted forecast_url two_locations
    "hourly" false [("latitude", VInt 0)] (start [inr nashik_response])
  = (Raise TypeError,
     mkState [inr nashik_response] [] ["Fetching data for A: (1, 2)"] []).
Proof.
  assert (K : In "latitude" ["latitude"; "longitude"; "location_name"])
    by (left; reflexivity).
  assert (M : dict_mem "latitude" [("latitude", VInt 0)] = true) by reflexivity.
  split; [auto|].
  exact (shared_coordinates_raise_TypeError script scripted forecast_url "hourly" false
           [("latitude", VInt 0)] "A" (VInt 1) (VInt 2) [("B", (VInt 3, VInt 4))]
           "latitude" (start [inr nashik_response]) K M).
Defined.

Lemma one_request_per_location_witness :
  get_weather_data_multiple_locations script scripted forecast_url two_locations
    "hourly" true shared_hourly (start [inr nashik_response; inr nashik_response])
  = (Ok [table_of "A"; table_of "B"], two_end) /\
  stdout two_end
  = (stdout (start [inr nashik_response; inr nashik_response])
     ++ map (fun loc => progress_line (fst loc) (fst (snd loc)) (snd (snd loc)))
            two_locations)%list /\
  exists reqs,
    sent two_end = (sent (start [inr nashik_response; inr nashik_response]) ++ reqs)%list /\
    Forall2 (fun loc req =>
               fst req = forecast_url /\
               dict_get "latitude" (snd req) = Some (fst (snd loc)) /\
               dict_get "longitude" (snd req) = Some (snd (snd loc)))
            two_locations reqs.
Proof.
  assert (H : get_weather_data_multiple_locations script scripted forecast_url
                two_locations "hourly" true shared_hourly
                (start [inr nashik_response; inr nashik_response])
              = (Ok [table_of "A"; table_of "B"], two_end)) by reflexivity.
  split; [exact H|].
  exact (one_request_per_location script scripted _ _ _ _ _ _ _ _ H).
Defined.

Lemma tables_carry_location_name_witness :
  get_weather_data_multiple_locations script scripted forecast_url two_locations
    "hourly" true shared_hourly (start [inr nashik_response; inr nashik_response])
  = (Ok [table_of "A"; table_of "B"], two_end) /\
  Forall2 (fun loc df =>
             fst loc <> EmptyString ->
             exists rest,
               cols df = ("location", repeat (VStr (fst loc)) (nrows df)) :: rest)
          two_locations [table_of "A"; table_of "B"].
Proof.
  assert (H : get_weather_data_multiple_locations script scripted forecast_url
                two_locations "hourly" true shared_hourly
                (start [inr nashik_response; inr nashik_response])
              = (Ok [table_of "A"; table_of "B"], two_end)) by reflexivity.
  split; [exact H|].
  exact (tables_carry_location_name script scripted _ _ _ _ _ _ _ _ H).
Defined.

Lemma main_saves_all_locations_witness :
  main script scripted main_config
    (start [inr nashik_response; inr nashik_response; inr nashik_response])
  = (Ok tt, main_end) /\
  exists config url dfs combined_df st1,
    main_config = VDict config /\
    dict_get "base_url" config = Some (VStr url) /\
    get_weather_data_multiple_locations script scripted url main_locations "hourly"
      false (without "base_url" config)
      (start [inr nashik_response; inr nashik_response; inr nashik_response])
    = (Ok dfs, st1) /\
    List.length dfs = 3 /\
    concat dfs = Ok combined_df /\
    nrows combined_df = list_sum (map nrows dfs) /\
    files main_end
    = (files (start [inr nashik_response; inr nashik_response; inr nashik_response])
       ++ [("abc1.csv", combined_df)])%list /\
    stdout main_end
    = (stdout (start [inr nashik_response; inr nashik_response; inr nashik_response])
       ++ ["Fetching data for Nashik: (20.5943, 74.3715)";
           "Fetching data for Pune: (18.5204, 73.8567)";
           "Fetching data for Mumbai: (19.076, 72.8777)";
           "Saved complete data to abc1.csv";
           "Data fetched and saved successfully."])%list /\
    sent main_end = sent st1 /\ net main_end = net st1.
Proof.
  assert (H : main script scripted main_config
                (start [inr nashik_response; inr nashik_response; inr nashik_response])
              = (Ok tt, main_end)) by reflexivity.
  split; [exact H|].
  exact (main_saves_all_locations script scripted _ _ _ H).
Defined.

Lemma main_failure_writes_nothing_witness :
  main script scripted main_config (start second_fails)
  = (Raise (RequestError (HTTPError 503)),
     mkState [] [request_for (VFloat "20.5943") (VFloat "74.3715");
                 request_for (VFloat "18.5204") (VFloat "73.8567")]
       ["Fetching data for Nashik: (20.5943, 74.3715)";
        "Fetching data for Pune: (18.5204, 73.8567)"] []) /\
  files (mkState (@nil (transport_error + value))
           [request_for (VFloat "20.5943") (VFloat "74.3715");
            request_for (VFloat "18.5204") (VFloat "73.8567")]
           ["Fetching data for Nashik: (20.5943, 74.3715)";
            "Fetching data for Pune: (18.5204, 73.8567)"] [])
  = files (start second_fails) /\
  exists k, k <= 3 /\
    ["Fetching data for Nashik: (20.5943, 74.3715)";
     "Fetching data for Pune: (18.5204, 73.8567)"]
    = (stdout (start second_fails)
       ++ firstn k ["Fetching data for Nashik: (20.5943, 74.3715)";
                    "Fetching data for Pune: (18.5204, 73.8567)";
                    "Fetching data for Mumbai: (19.076, 72.8777)"])%list.
Proof.
  assert (H : main script scripted main_config (start second_fails)
              = (Raise (RequestError (HTTPError 503)),
                 mkState [] [request_for (VFloat "20.5943") (VFloat "74.3715");
                             request_for (VFloat "18.5204") (VFloat "73.8567")]
                   ["Fetching data for Nashik: (20.5943, 74.3715)";
                    "Fetching data for Pune: (18.5204, 73.8567)"] []))
    by reflexivity.
  split; [exact H|].
  exact (main_failure_writes_nothing script scripted _ _ _ _ H).
Defined.

Lemma main_without_base_url_witness :
  dict_get "base_url" shared_hourly = None /\
  main script scripted (VDict shared_hourly) (start [inr nashik_response])
  = (Raise (KeyError "'base_url'"), start [inr nashik_response]).
Proof.
  assert (H : dict_get "base_url" shared_hourly = None) by reflexivity.
  split; [exact H|].
  exact (main_without_base_url script scripted shared_hourly
           (start [inr nashik_response]) H).
Defined.



Lemma series_not_a_mapping_raises_AttributeError_witness :
  get_weather_data_df script scripted forecast_url "hourly" false VNone VNone []
    (start [inr (VDict [("hourly", VNone)])])
  = (Raise AttributeError, mkState [] [(forecast_url, [])] [] []).
Proof.
  refine (series_not_a_mapping_raises_AttributeError script scripted forecast_url
            "hourly" false VNone VNone [] [] [("hourly", VNone)] VNone
            (start [inr (VDict [("hourly", VNone)])]) _ _ _ _);
    try reflexivity.
  discriminate.
Defined.

Lemma time_column_label_witness :
  get_weather_data_df script scripted forecast_url "hourly" false VNone (VStr "Nashik")
    nashik_params (start [inr nashik_response]) = (Ok nashik_table, nashik_after) /\
  exists params' d,
    join_hourly nashik_params = Ok params' /\
    fst (scripted forecast_url params' (net (start [inr nashik_response])))
    = inr (VDict d) /\
    (dict_get "timezone" d = None -> In "time (UTC)" (columns nashik_table)) /\
    (forall tz, dict_get "timezone" d = Some (VStr tz) -> tz <> EmptyString ->
                In ("time (" ++ tz ++ ")") (columns nashik_table)) /\
    (dict_get "timezone" d = Some VNone \/
     dict_get "timezone" d = Some (VStr EmptyString) ->
     In "time" (columns nashik_table)).
Proof.
  assert (H : get_weather_data_df script scripted forecast_url "hourly" false VNone
                (VStr "Nashik") nashik_params (start [inr nashik_response])
              = (Ok nashik_table, nashik_after)) by reflexivity.
  split; [exact H|].
  exact (time_column_label script scripted _ _ _ _ _ _ _ _ _ H).
Defined.
